(** * fixMyRefs 2025.7: the relink engine of [fixMyRefs2025_7.py]

    A shallow embedding of the path-resolution and relink-decision logic of
    the Maya reference relinker ([relink_references] and the helpers it
    calls), together with the properties of that logic.

    Conventions of the embedding.
    - A Python [str] is a [string]; a character is a code point below 256.
      On that range [\d] is the ASCII digits and [str.isspace] is the set
      written out in [py_isspace].  The copy-suffix pattern is also given
      over all of Unicode, in [UniPattern], with the class of [\d] as a
      parameter.
    - [os.path] is [posixpath]: the separator is the forward slash.
    - The host application ([maya.cmds]) and the file system ([os]) are
      not part of the program.  They are the interface [Host]; a host state
      is a value of an arbitrary type [W].  Queries are total; only the
      reload command [cmds.file(..., loadReference=...)] can raise.  The
      layer [QueryFaults] lifts this for the query of the unresolved name,
      the one the source itself guards with a [try] in one of its loops.
    - The loop of [relink_references] threads a record [RelinkState]: the
      host state, the locals [success] and [failed], the globals
      [relink_log] and [relinked_refs], what was printed, and a ghost trace
      of the directory walks and reload commands issued. *)

From Stdlib Require Import Ascii String List Bool Arith NArith Lia.
From stdpp Require Import base gmap strings list.

Local Open Scope string_scope.
Local Open Scope list_scope.

(* stdpp keeps [simpl] from unfolding the append of strings; the proofs
   below compute with it. *)
#[local] Arguments String.append !s1 s2 : simpl nomatch.

(** ** Python strings *)

Module PyStr.

Definition newline : ascii := Ascii.ascii_of_nat 10.
Definition slash : ascii := "/"%char.
Definition backslash : ascii := "\"%char.

Definition nl : string := String newline EmptyString.

(** [str.isspace] on one character, for code points below 256. *)
Definition py_isspace (c : ascii) : bool :=
  let n := Ascii.nat_of_ascii c in
  (((9 <=? n) && (n <=? 13)) || ((28 <=? n) && (n <=? 32))
   || (n =? 133) || (n =? 160))%nat.

(** [s.lstrip()] *)
Fixpoint lstrip (s : string) : string :=
  match s with
  | String c s' => if py_isspace c then lstrip s' else s
  | EmptyString => EmptyString
  end.

(** [s.rstrip()] *)
Fixpoint rstrip (s : string) : string :=
  match s with
  | String c s' =>
      match rstrip s' with
      | EmptyString => if py_isspace c then EmptyString else String c EmptyString
      | r => String c r
      end
  | EmptyString => EmptyString
  end.

(** [s.strip()] *)
Definition strip (s : string) : string := rstrip (lstrip s).

(** [s.replace("\\", "/")] *)
Fixpoint replace_backslash (s : string) : string :=
  match s with
  | String c s' =>
      String (if Ascii.eqb c backslash then slash else c) (replace_backslash s')
  | EmptyString => EmptyString
  end.

(** [sub in s] *)
Fixpoint contains (sub s : string) : bool :=
  String.prefix sub s ||
  match s with
  | String _ s' => contains sub s'
  | EmptyString => false
  end.

(** [x in xs] for a list of strings *)
Definition str_in (x : string) (xs : list string) : bool :=
  existsb (String.eqb x) xs.

(** Every character of [s] satisfies [p]. *)
Fixpoint all_chars (p : ascii -> bool) (s : string) : bool :=
  match s with
  | String c s' => p c && all_chars p s'
  | EmptyString => true
  end.

(** Truthiness of a string: [if s:] *)
Definition truthy (s : string) : bool :=
  match s with EmptyString => false | _ => true end.

(** [sep.join(xs)] *)
Definition join (sep : string) (xs : list string) : string := String.concat sep xs.

(** [s[:n]] *)
Definition take (n : nat) (s : string) : string := String.substring 0 n s.

(** [str(b)] for a bool, as an f-string renders it. *)
Definition of_bool (b : bool) : string := if b then "True" else "False".

End PyStr.

(** ** [os.path] (posixpath) *)

Module OsPath.

(** [os.path.basename]: what follows the last slash. *)
Fixpoint basename_from (cand s : string) : string :=
  match s with
  | String c s' =>
      if Ascii.eqb c PyStr.slash then basename_from s' s' else basename_from cand s'
  | EmptyString => cand
  end.

Definition basename (p : string) : string := basename_from p p.

Fixpoint ends_with_slash (s : string) : bool :=
  match s with
  | String c EmptyString => Ascii.eqb c PyStr.slash
  | String _ s' => ends_with_slash s'
  | EmptyString => false
  end.

(** [os.path.join(a, b)] *)
Definition join (a b : string) : string :=
  match b with
  | String c _ =>
      if Ascii.eqb c PyStr.slash then b
      else if negb (PyStr.truthy a) || ends_with_slash a then a +:+ b
      else a +:+ "/" +:+ b
  | EmptyString =>
      if negb (PyStr.truthy a) || ends_with_slash a then a else a +:+ "/"
  end.

End OsPath.

(** ** The copy-suffix pattern (line 18)

    [copy_suffix_pattern = re.compile(r"(.+)({\d+})$")], used through
    [.match], which anchors at the start of the string.  The matcher below
    follows the backtracking order of the pattern: [.+] is greedy and gives
    characters back one at a time; [.] is any character but the newline;
    [$] holds at the end of the string and just before a final newline. *)

Module CopySuffix.

Definition is_digit (c : ascii) : bool :=
  let n := Ascii.nat_of_ascii c in ((48 <=? n) && (n <=? 57))%nat.

Definition is_dot (c : ascii) : bool := negb (Ascii.eqb c PyStr.newline).

(** [$] *)
Definition at_end (s : string) : bool :=
  match s with
  | EmptyString => true
  | String c EmptyString => Ascii.eqb c PyStr.newline
  | _ => false
  end.

(** [\d*] then [}] then [$]; returns the digits consumed.  A digit is
    never a closing brace, so giving digits back cannot help and the greedy
    run is the only one to try. *)
Fixpoint digits_close (s : string) : option string :=
  match s with
  | String c s' =>
      if is_digit c then
        match digits_close s' with
        | Some ds => Some (String c ds)
        | None => None
        end
      else if Ascii.eqb c "}"%char then
        if at_end s' then Some EmptyString else None
      else None
  | EmptyString => None
  end.

(** [({\d+})$]: the text of group 2. *)
Definition group2_end (s : string) : option string :=
  match s with
  | String c s' =>
      if Ascii.eqb c "{"%char then
        match digits_close s' with
        | Some (String d ds) => Some ("{" +:+ String d ds +:+ "}")
        | _ => None
        end
      else None
  | EmptyString => None
  end.

(** [.*] followed by the rest of the pattern, longest first. *)
Fixpoint dot_star (s : string) : option (string * string) :=
  match s with
  | String c s' =>
      if is_dot c then
        match dot_star s' with
        | Some (p, g) => Some (String c p, g)
        | None =>
            match group2_end s with
            | Some g => Some (EmptyString, g)
            | None => None
            end
        end
      else
        match group2_end s with
        | Some g => Some (EmptyString, g)
        | None => None
        end
  | EmptyString => None
  end.

(** [copy_suffix_pattern.match(s)]: groups 1 and 2 when it matches. *)
Definition pattern_match (s : string) : option (string * string) :=
  match s with
  | String c s' =>
      if is_dot c then
        match dot_star s' with
        | Some (p, g) => Some (String c p, g)
        | None => None
        end
      else None
  | EmptyString => None
  end.

(** The match of the pattern's tail with nothing given to [.*]. *)
Definition then_empty (r : option string) : option (string * string) :=
  match r with Some g => Some ("", g) | None => None end.

(** A character other than the opening brace. *)
Definition not_open (c : ascii) : bool := negb (Ascii.eqb c "{").

(** Lines 196-200 and 253-257: the clean name of a raw file name. *)
Definition clean_file_name (file_name_raw : string) : string :=
  match pattern_match file_name_raw with
  | Some (g1, _) => g1
  | None => file_name_raw
  end.

(** The decoration as the specification words it: a brace-enclosed
    non-negative integer, that is one digit or more between braces. *)
Definition is_number (digits : string) : Prop :=
  digits <> "" /\ PyStr.all_chars is_digit digits = true.

Definition decoration (digits : string) : string := "{" +:+ digits +:+ "}".

(** A base the pattern can capture: not empty, and without a newline. *)
Definition is_base (base : string) : Prop :=
  base <> "" /\ PyStr.all_chars is_dot base = true.

(** The names the pattern matches: a base, the decoration, and at most a
    final newline. *)
Definition matched_shape (F base digits tail : string) : Prop :=
  is_base base /\ is_number digits /\ at_end tail = true
  /\ F = base +:+ decoration digits +:+ tail.

End CopySuffix.

(** ** The host collaborator

    [maya.cmds] and [os], as far as [relink_references] uses them.  The
    names are the Python ones with the dots replaced. *)

(** What [cmds.file(new_path, loadReference=ref)] did: it returned, or it
    raised an exception whose [str] is [msg].  Either way the host is in a
    new state. *)
Inductive ReloadResult (W : Type) : Type :=
  | Returned (w : W)
  | Raised (msg : string) (w : W).
Arguments Returned {W} w.
Arguments Raised {W} msg w.

Class Host (W : Type) : Type := {
  (** [cmds.ls(type="reference")] *)
  cmds_ls_reference : W -> list string;
  (** [cmds.objExists(ref)] *)
  cmds_objExists : W -> string -> bool;
  (** [cmds.referenceQuery(ref, filename=True)], which is also
      [cmds.referenceQuery(ref, filename=True, unresolvedName=False)] *)
  cmds_referenceQuery_filename : W -> string -> string;
  (** [cmds.referenceQuery(ref, filename=True, unresolvedName=True)] *)
  cmds_referenceQuery_unresolvedName : W -> string -> string;
  (** [cmds.referenceQuery(ref, isLoaded=True)] *)
  cmds_referenceQuery_isLoaded : W -> string -> bool;
  (** [cmds.file(new_path, loadReference=ref)] *)
  cmds_file_loadReference : W -> string -> string -> ReloadResult W;
  (** [cmds.checkBox(cb, query=True, value=True)] *)
  cmds_checkBox_value : W -> string -> bool;
  (** [cmds.textField(tf, exists=True)] *)
  cmds_textField_exists : W -> string -> bool;
  (** [cmds.textField(tf, query=True, text=True)] *)
  cmds_textField_text : W -> string -> string;
  (** [os.path.exists(p)] *)
  os_path_exists : W -> string -> bool;
  (** [os.path.isdir(p)] *)
  os_path_isdir : W -> string -> bool;
  (** [os.walk(top)], as the list of the triples it yields *)
  os_walk : W -> string -> list (string * list string * list string);
  (** [os.walk] is called with its default [onerror=None]: a top that
      cannot be listed as a directory yields nothing. *)
  os_walk_notdir : forall w top, os_path_isdir w top = false -> os_walk w top = []
}.

(** Ghost record of the calls that reach the host or walk the disk. *)
Inductive HostCall : Type :=
  | CallWalk (search_dir : string)
  | CallReload (new_path ref : string).

(** ** The state threaded through [relink_references] *)

Record RelinkState (W : Type) : Type := mkState {
  world : W;                       (* the host application and the disk *)
  success : list string;           (* local [success] *)
  failed : list string;            (* local [failed] *)
  relink_log : list string;        (* global [relink_log] *)
  relinked_refs : gset string;     (* global [relinked_refs] *)
  printed : list string;           (* what [print] wrote *)
  trace : list HostCall            (* ghost: walks and reloads, in order *)
}.
Arguments mkState {W}.
Arguments world {W}.
Arguments success {W}.
Arguments failed {W}.
Arguments relink_log {W}.
Arguments relinked_refs {W}.
Arguments printed {W}.
Arguments trace {W}.

(** Lines 303-305 *)
Definition max_len : nat := 1000.
Definition truncation_marker : string := PyStr.nl +:+ "...(message truncated)".

Definition truncate_message (message : string) : string :=
  if (max_len <? String.length message)%nat
  then PyStr.take max_len message +:+ truncation_marker
  else message.

(** Lines 297-301: the text of [message] before truncation. *)
Definition summary_message (success failed : list string) : string :=
  let message := "" in
  let message :=
    match success with
    | [] => message
    | _ => message +:+ "Successfully relinked:" +:+ PyStr.nl
           +:+ PyStr.join PyStr.nl success +:+ PyStr.nl +:+ PyStr.nl
    end in
  match failed with
  | [] => message
  | _ => message +:+ "Failed to relink:" +:+ PyStr.nl +:+ PyStr.join PyStr.nl failed
  end.

(** Lines 302-306: what [cmds.confirmDialog] is given, if it is called. *)
Definition confirm_dialog (message : string) : option string :=
  if PyStr.truthy message then Some (truncate_message message) else None.

(** Lines 167-171 *)
Definition convert_slashes (path : string) (convert_to_forward : bool) : string :=
  if convert_to_forward then PyStr.replace_backslash path else path.

(** Lines 162-165, over the triples of the walk. *)
Fixpoint first_match (file_name : string)
    (walk : list (string * list string * list string)) : option string :=
  match walk with
  | (root, _, files) :: rest =>
      if PyStr.str_in file_name files then Some (OsPath.join root file_name)
      else first_match file_name rest
  | [] => None
  end.

Section Relink.

Context {W : Type} `{Host W}.

(** Lines 160-165 *)
Definition find_file_in_directory (w : W) (search_dir file_name : string)
    : option string :=
  first_match file_name (os_walk w search_dir).

(** The two lines [failed.append(f"{ref}: {reason}")] and
    [relink_log.append(f"Failed to relink {ref}: {reason}")]. *)
Definition record_failure (ref reason : string) (s : RelinkState W) : RelinkState W :=
  mkState (world s) (success s)
    (failed s ++ [ref +:+ ": " +:+ reason])
    (relink_log s ++ ["Failed to relink " +:+ ref +:+ ": " +:+ reason])
    (relinked_refs s) (printed s) (trace s).

Definition reason_not_found (clean_file_name search_dir : string) : string :=
  "Could not find '" +:+ clean_file_name +:+ "' in " +:+ search_dir +:+ " (and subdirs)".

Definition reason_target_missing (new_path : string) : string :=
  "Target path does not exist: '" +:+ new_path +:+ "'".

Definition reason_verification (is_now_loaded : bool) (current_resolved_path : string)
    : string :=
  "Verification failed (Loaded: " +:+ PyStr.of_bool is_now_loaded
  +:+ ", Path: '" +:+ current_resolved_path +:+ "')".

Definition reason_host_error (e : string) : string := "Error: " +:+ e.

Definition reason_invalid_directory (search_dir : string) : string :=
  "Provided directory does not exist: " +:+ search_dir.

(** The three lines of a success: [success.append(ref)],
    [relink_log.append(...)] and [relinked_refs.add(ref)]. *)
Definition record_success (ref current_resolved_path : string) (s : RelinkState W)
    : RelinkState W :=
  mkState (world s) (success s ++ [ref]) (failed s)
    (relink_log s ++ ["Successfully relinked " +:+ ref +:+ " to "
                      +:+ current_resolved_path])
    ({[ref]} ∪ relinked_refs s) (printed s) (trace s).

(** Ghost: note a call in the trace. *)
Definition log_call (c : HostCall) (s : RelinkState W) : RelinkState W :=
  mkState (world s) (success s) (failed s) (relink_log s) (relinked_refs s)
    (printed s) (trace s ++ [c]).

(** The host moved to the state [w']. *)
Definition set_world (w' : W) (s : RelinkState W) : RelinkState W :=
  mkState w' (success s) (failed s) (relink_log s) (relinked_refs s)
    (printed s) (trace s).

(** Lines 211-233, and again 273-295: the check of the target path, the
    reload and its verification.  The source has this block twice, word
    for word. *)
Definition attempt_reload (ref new_path : string) (s : RelinkState W) : RelinkState W :=
  if PyStr.truthy new_path && os_path_exists (world s) new_path then
    match cmds_file_loadReference (world s) new_path ref with
    | Returned w' =>
        let s' := set_world w' (log_call (CallReload new_path ref) s) in
        let is_now_loaded := cmds_referenceQuery_isLoaded w' ref in
        let current_resolved_path := cmds_referenceQuery_filename w' ref in
        if is_now_loaded then record_success ref current_resolved_path s'
        else record_failure ref (reason_verification is_now_loaded current_resolved_path) s'
    | Raised e w' =>
        record_failure ref (reason_host_error e)
          (set_world w' (log_call (CallReload new_path ref) s))
    end
  else record_failure ref (reason_target_missing new_path) s.

(** Lines 195-198 and 252-255: the name searched for. *)
Definition clean_name_of (w : W) (ref : string) : string :=
  let original_path := cmds_referenceQuery_unresolvedName w ref in
  let file_name_raw := OsPath.basename original_path in
  CopySuffix.clean_file_name file_name_raw.

(** Lines 195-208, and again 252-265: the clean name of the reference's
    file, the search for it under [search_dir], and the reload of what was
    found. *)
Definition search_and_reload (ref search_dir : string) (s : RelinkState W)
    : RelinkState W :=
  let clean_file_name := clean_name_of (world s) ref in
  let found_path := find_file_in_directory (world s) search_dir clean_file_name in
  let s' := log_call (CallWalk search_dir) s in
  match found_path with
  | Some new_path =>
      if PyStr.truthy new_path then attempt_reload ref new_path s'
      else record_failure ref (reason_not_found clean_file_name search_dir) s'
  | None => record_failure ref (reason_not_found clean_file_name search_dir) s'
  end.

(** Lines 190-192 and 236-238 *)
Definition skip_missing (ref : string) (s : RelinkState W) : RelinkState W :=
  mkState (world s) (success s) (failed s) (relink_log s) (relinked_refs s)
    (printed s ++ ["Skipping " +:+ ref +:+ ": Reference node no longer exists."])
    (trace s).

(** Lines 190-233: the body of the loop over [broken_refs]. *)
Definition single_path_step (dir_only : bool) (single_path : string)
    (s : RelinkState W) (ref : string) : RelinkState W :=
  if negb (cmds_objExists (world s) ref) then skip_missing ref s
  else if dir_only then search_and_reload ref single_path s
  else attempt_reload ref single_path s.

(** Lines 236-295: the body of the loop over [mapping_dict.items()]. *)
Definition per_reference_step (dir_only convert_to_forward : bool)
    (s : RelinkState W) (item : string * string) : RelinkState W :=
  let '(ref, text_field) := item in
  if negb (cmds_objExists (world s) ref) then skip_missing ref s
  else
    let user_input := PyStr.strip (cmds_textField_text (world s) text_field) in
    if negb (PyStr.truthy user_input) then s
    else
      let user_input := convert_slashes user_input convert_to_forward in
      if dir_only then
        let search_dir := user_input in
        if negb (os_path_isdir (world s) search_dir) then
          record_failure ref (reason_invalid_directory search_dir) s
        else search_and_reload ref search_dir s
      else attempt_reload ref user_input s.

(** Line 32/62: the reference nodes but the shared one. *)
Definition all_refs (w : W) : list string :=
  List.filter (fun ref => negb (PyStr.contains "sharedReferenceNode" ref))
    (cmds_ls_reference w).

(** Line 182 *)
Definition broken_refs (w : W) : list string :=
  List.filter
    (fun ref => negb (PyStr.contains "sharedReferenceNode" ref)
                && negb (os_path_exists w (cmds_referenceQuery_filename w ref)))
    (cmds_ls_reference w).

(** Lines 62-115 of [populate_ui]: the keys of [mapping_dict], in order.
    Each key is mapped to a text field newly made for it. *)
Definition mapping_refs (show_all use_single_path : bool) (w : W) : list string :=
  let refs_to_display :=
    if show_all then all_refs w
    else List.filter (fun ref => negb (cmds_referenceQuery_isLoaded w ref)) (all_refs w) in
  List.filter
    (fun ref => negb (cmds_referenceQuery_isLoaded w ref) && negb use_single_path)
    refs_to_display.

(** Lines 184-295: the two loops. *)
Definition run_batch (use_single_path : bool) (mapping_dict : list (string * string))
    (dir_only convert_to_forward : bool) (s : RelinkState W) : RelinkState W :=
  if use_single_path then
    if cmds_textField_exists (world s) "singlePathField" then
      let single_path := PyStr.strip (cmds_textField_text (world s) "singlePathField") in
      if PyStr.truthy single_path then
        let single_path := convert_slashes single_path convert_to_forward in
        fold_left (single_path_step dir_only single_path) (broken_refs (world s)) s
      else s
    else s
  else fold_left (per_reference_step dir_only convert_to_forward) mapping_dict s.

(** Lines 179-180, with the globals as they are on entry. *)
Definition initial_state (log : list string) (relinked : gset string) (w : W)
    : RelinkState W :=
  mkState w [] [] log relinked [] [].

(** Lines 174-306: [relink_references], from the globals [relink_log] and
    [relinked_refs] and the host state [w].  The result is the final state
    and the message of the dialog, if one is shown. *)
Definition relink_references (use_single_path_state : bool)
    (mapping_dict : list (string * string))
    (dir_only_checkbox slash_convert_checkbox : string)
    (log : list string) (relinked : gset string) (w : W)
    : RelinkState W * option string :=
  let dir_only := cmds_checkBox_value w dir_only_checkbox in
  let convert_to_forward := cmds_checkBox_value w slash_convert_checkbox in
  let s0 := initial_state log relinked w in
  let s := run_batch use_single_path_state mapping_dict dir_only convert_to_forward s0 in
  (s, confirm_dialog (summary_message (success s) (failed s))).

(** ** Vocabulary of the properties *)

(** Nothing was recorded between [s] and [s']: no outcome, no log line, no
    member of the relinked set, no call, and the host did not move. *)
Definition nothing_recorded (s s' : RelinkState W) : Prop :=
  success s' = success s /\ failed s' = failed s
  /\ relink_log s' = relink_log s /\ relinked_refs s' = relinked_refs s
  /\ trace s' = trace s /\ world s' = world s.

(** Exactly one success was recorded for [ref], with its log line. *)
Definition one_success (ref : string) (s s' : RelinkState W) : Prop :=
  success s' = success s ++ [ref] /\ failed s' = failed s
  /\ (exists path, relink_log s' =
         relink_log s ++ ["Successfully relinked " +:+ ref +:+ " to " +:+ path])
  /\ relinked_refs s' = {[ref]} ∪ relinked_refs s.

(** Exactly one failure was recorded for [ref], with this reason, and the
    relinked set was left alone. *)
Definition one_failure (ref reason : string) (s s' : RelinkState W) : Prop :=
  success s' = success s
  /\ failed s' = failed s ++ [ref +:+ ": " +:+ reason]
  /\ relink_log s' = relink_log s ++ ["Failed to relink " +:+ ref +:+ ": " +:+ reason]
  /\ relinked_refs s' = relinked_refs s.


Definition is_reload (c : HostCall) : bool :=
  match c with CallReload _ _ => true | CallWalk _ => false end.

(** What the user typed for a reference, as lines 239-242 read it. *)
Definition user_input_of (convert_to_forward : bool) (w : W) (text_field : string)
    : string :=
  convert_slashes (PyStr.strip (cmds_textField_text w text_field)) convert_to_forward.

(** The body of one of the two loops ran for [ref] with the path
    [user_path]: the shared path of the first loop, or the text typed for
    [ref], not blank, in the second. *)
Definition runs_step (dir_only : bool) (user_path ref : string)
    (s s' : RelinkState W) : Prop :=
  (user_path <> "" /\ s' = single_path_step dir_only user_path s ref)
  \/ exists convert_to_forward text_field,
       PyStr.strip (cmds_textField_text (world s) text_field) <> ""
       /\ user_input_of convert_to_forward (world s) text_field = user_path
       /\ s' = per_reference_step dir_only convert_to_forward s (ref, text_field).

(** The candidate path of a reference: the path itself when it names the
    file, what the search under it finds when it names a directory. *)
Definition candidate_of (dir_only : bool) (user_path ref : string) (w : W)
    : option string :=
  if dir_only then
    match find_file_in_directory w user_path (clean_name_of w ref) with
    | Some found_path => if PyStr.truthy found_path then Some found_path else None
    | None => None
    end
  else Some user_path.

(** The state in which the reload block starts: after the walk, when the
    path names a directory. *)
Definition searched (dir_only : bool) (user_path : string) (s : RelinkState W)
    : RelinkState W :=
  if dir_only then log_call (CallWalk user_path) s else s.

Definition outcomes (s : RelinkState W) : nat :=
  length (success s) + length (failed s).

End Relink.

(** ** A test double of the host

    A small scene and disk that implement [Host]: reference nodes with
    their stored paths, copy-number tag and load state, a directory tree,
    and a reload command that can be told to reject a path or to return
    without loading it.  As in the host application, the file name of a
    reference carries its copy-number tag. *)

Module TestHost.

#[warnings="-register-all"]
Inductive fsnode : Type :=
  | File
  | Dir (entries : list (string * fsnode)).

Record RefNode : Type := mkRef {
  rn_name : string;          (* the reference node *)
  rn_unresolved : string;    (* the stored path, as written in the scene *)
  rn_file : string;          (* the file the reference points at *)
  rn_copy : string;          (* the copy-number tag, or the empty string *)
  rn_loaded : bool
}.

Record World : Type := mkWorld {
  nodes : list RefNode;
  disk : list (string * fsnode);           (* the entries of the root *)
  check_boxes : list (string * bool);
  text_fields : list (string * string);
  rejected : list (string * string);       (* path, and the error raised *)
  inert : list string                      (* paths that load nothing *)
}.

Fixpoint assoc {A : Type} (k : string) (l : list (string * A)) : option A :=
  match l with
  | (k', v) :: rest => if String.eqb k k' then Some v else assoc k rest
  | [] => None
  end.

Definition find_node (w : World) (ref : string) : option RefNode :=
  List.find (fun n => String.eqb (rn_name n) ref) (nodes w).

(** The components of a path, empty ones dropped. *)
Fixpoint components_from (cur : string) (s : string) : list string :=
  match s with
  | String c s' =>
      if Ascii.eqb c PyStr.slash then
        (if PyStr.truthy cur then [cur] else []) ++ components_from "" s'
      else components_from (cur +:+ String c "") s'
  | EmptyString => if PyStr.truthy cur then [cur] else []
  end.

Definition components (p : string) : list string := components_from "" p.

Fixpoint lookup_path (n : fsnode) (comps : list string) : option fsnode :=
  match comps with
  | [] => Some n
  | c :: cs =>
      match n with
      | Dir es =>
          match assoc c es with
          | Some child => lookup_path child cs
          | None => None
          end
      | File => None
      end
  end.

(** Only absolute paths name something. *)
Definition resolve (w : World) (p : string) : option fsnode :=
  match p with
  | String c _ =>
      if Ascii.eqb c PyStr.slash then lookup_path (Dir (disk w)) (components p)
      else None
  | EmptyString => None
  end.

Definition exists_ (w : World) (p : string) : bool :=
  match resolve w p with Some _ => true | None => false end.

Definition isdir (w : World) (p : string) : bool :=
  match resolve w p with Some (Dir _) => true | _ => false end.


Definition is_dir_node (n : fsnode) : bool :=
  match n with Dir _ => true | File => false end.

Definition dirnames (es : list (string * fsnode)) : list string :=
  map fst (List.filter (fun e => is_dir_node (snd e)) es).

Definition filenames (es : list (string * fsnode)) : list string :=
  map fst (List.filter (fun e => negb (is_dir_node (snd e))) es).

(** The top-down walk of a tree. *)
Fixpoint walk (top : string) (n : fsnode) : list (string * list string * list string) :=
  match n with
  | File => []
  | Dir es =>
      (top, dirnames es, filenames es)
      :: flat_map (fun e => walk (OsPath.join top (fst e)) (snd e)) es
  end.

Definition walk_from (w : World) (top : string) : list (string * list string * list string) :=
  if isdir w top then
    match resolve w top with
    | Some n => walk top n
    | None => []
    end
  else [].

Definition reload_node (new_path : string) (n : RefNode) : RefNode :=
  mkRef (rn_name n) (new_path +:+ rn_copy n) new_path (rn_copy n) true.

Definition reload (w : World) (new_path ref : string) : ReloadResult World :=
  match assoc new_path (rejected w) with
  | Some e => Raised e w
  | None =>
      if PyStr.str_in new_path (inert w) then Returned w
      else
        Returned
          (mkWorld
             (map (fun n => if String.eqb (rn_name n) ref then reload_node new_path n else n)
                  (nodes w))
             (disk w) (check_boxes w) (text_fields w) (rejected w) (inert w))
  end.

Definition node_query {A : Type} (w : World) (ref : string) (f : RefNode -> A) (d : A) : A :=
  match find_node w ref with Some n => f n | None => d end.

Definition walk_from_notdir (w : World) (top : string)
    (Hd : isdir w top = false) : walk_from w top = [] :=
  @eq_ind_r bool false
    (fun b : bool =>
       (if b then match resolve w top with Some n => walk top n | None => [] end
        else []) = [])
    eq_refl (isdir w top) Hd.

#[export] Instance host : Host World := {
  cmds_ls_reference w := map rn_name (nodes w);
  cmds_objExists w ref := match find_node w ref with Some _ => true | None => false end;
  cmds_referenceQuery_filename w ref := node_query w ref (fun n => rn_file n +:+ rn_copy n) "";
  cmds_referenceQuery_unresolvedName w ref := node_query w ref rn_unresolved "";
  cmds_referenceQuery_isLoaded w ref := node_query w ref rn_loaded false;
  cmds_file_loadReference := reload;
  cmds_checkBox_value w cb := match assoc cb (check_boxes w) with Some b => b | None => false end;
  cmds_textField_exists w tf := match assoc tf (text_fields w) with Some _ => true | None => false end;
  cmds_textField_text w tf := match assoc tf (text_fields w) with Some t => t | None => "" end;
  os_path_exists := exists_;
  os_path_isdir := isdir;
  os_walk := walk_from;
  os_walk_notdir := walk_from_notdir
}.

(** The disk of the scenarios: [/lib/sub/asset.ma]. *)
Definition lib_disk : list (string * fsnode) :=
  [("lib", Dir [("sub", Dir [("asset.ma", File)])])].

Definition ui (single_path : string) : list (string * string) :=
  [("singlePathField", single_path)].

Definition boxes (dir_only convert : bool) : list (string * bool) :=
  [("dirOnly", dir_only); ("slashConvert", convert)].

(** A broken reference named [ref1]: its stored path, and its copy-number
    tag. *)
Definition ref1 (unresolved copy : string) : RefNode :=
  mkRef "ref1" unresolved "/old/asset.ma" copy false.

(** A scene: its reference nodes, the shared path, the text typed in the
    field [tf1], and the directory-only box. *)
Definition scene (refs : list RefNode) (single_path typed : string) (dir_only : bool)
    : World :=
  mkWorld refs lib_disk (boxes dir_only true) (("tf1", typed) :: ui single_path) [] [].

(** The same scene with a host that raises [e] on the reload of [path], or
    that returns from it without loading anything. *)
Definition rejecting (path e : string) (w : World) : World :=
  mkWorld (nodes w) (disk w) (check_boxes w) (text_fields w) [(path, e)] (inert w).


(** Scenario A as specified, the copy number before the extension. *)
Definition scene_A_stated : World :=
  scene [ref1 "/old/asset{2}.ma" "{2}"] "/lib" "" true.

(** Scenario A with the copy number after the file name. *)
Definition scene_A : World :=
  scene [ref1 "/old/asset.ma{2}" "{2}"] "/lib" "/lib" true.


(** Scenario C: a file that does not exist, typed for [ref1]. *)
Definition scene_C : World :=
  scene [ref1 "/old/asset.ma" ""] "/tmp/doesnotexist.ma" "/tmp/doesnotexist.ma" false.


(** A path that is no directory given where a directory is expected. *)
Definition scene_no_dir : World :=
  scene [ref1 "/old/asset.ma" ""] "/nowhere" "/nowhere" true.

(** A blank text field. *)
Definition scene_blank : World :=
  scene [ref1 "/old/asset.ma" ""] "/lib" "  " true.

(** No reference node at all: [ref1] is gone. *)
Definition scene_gone : World := scene [] "/lib" "/lib" true.

(** A reference with a name of 1001 characters. *)
Fixpoint repeat_char (n : nat) (c : ascii) : string :=
  match n with
  | O => EmptyString
  | S n' => String c (repeat_char n' c)
  end.

Definition long_name : string := repeat_char 1001 "r".

Definition scene_long : World :=
  scene [mkRef long_name "/old/asset.ma" "/old/asset.ma" "" false]
    "/tmp/doesnotexist.ma" "/tmp/doesnotexist.ma" false.

(** The state a reload leaves, whatever it answered. *)
Definition after_reload (w : World) (new_path ref : string) : World :=
  match reload w new_path ref with
  | Returned w' => w'
  | Raised _ w' => w'
  end.

End TestHost.

(** ** The rest of the program

    The dictionary [original_paths] of [show_fixMyRefs_ui], the text of
    [show_paths_popup], and the vocabulary of the properties of a whole
    batch. *)

(** A Python [dict] with string keys, in insertion order. *)
Module PyDict.

(** [d[k] = v]: a new key goes last, a known key keeps its place. *)
Fixpoint set {A : Type} (k : string) (v : A) (d : list (string * A)) : list (string * A) :=
  match d with
  | (k', v') :: rest =>
      if String.eqb k k' then (k, v) :: rest else (k', v') :: set k v rest
  | [] => [(k, v)]
  end.

(** [d.get(k)] *)
Fixpoint get {A : Type} (k : string) (d : list (string * A)) : option A :=
  match d with
  | (k', v) :: rest => if String.eqb k k' then Some v else get k rest
  | [] => None
  end.

(** [list(d)]: the keys, in order. *)
Definition keys {A : Type} (d : list (string * A)) : list string := map fst d.

(** [{k: f(k) for k in ks}] *)
Definition comprehension {A : Type} (f : string -> A) (ks : list string)
    : list (string * A) :=
  fold_left (fun d k => set k (f k) d) ks [].

End PyDict.

Section Program.

Context {W : Type} `{Host W}.

(** Lines 32-33 of [show_fixMyRefs_ui]: the global [original_paths]. *)
Definition original_paths_of (w : W) : list (string * string) :=
  PyDict.comprehension (cmds_referenceQuery_filename w) (all_refs w).

(** Lines 316-321 of [show_paths_popup]: what one reference adds to
    [path_text]. *)
Definition path_entry (w : W) (relinked : gset string) (ref old_path : string) : string :=
  if bool_decide (ref ∈ relinked) then
    let current_path :=
      if cmds_objExists w ref then cmds_referenceQuery_filename w ref
      else "Reference removed" in
    old_path +:+ PyStr.nl +:+ current_path +:+ PyStr.nl +:+ PyStr.nl
  else old_path +:+ PyStr.nl +:+ PyStr.nl.

(** Lines 314-321: [path_text], over the items of [original_paths]. *)
Definition path_text (w : W) (relinked : gset string)
    (original_paths : list (string * string)) : string :=
  fold_left (fun text item => text +:+ path_entry w relinked (fst item) (snd item))
    original_paths "".

(** The reload calls among some calls. *)
Definition reloads (calls : list HostCall) : list HostCall := List.filter is_reload calls.

(** One turn of one of the two loops, for the item [(ref, text_field)]. *)
Definition turn (dir_only convert_to_forward : bool) (single_path : string)
    (item : string * string) (s s' : RelinkState W) : Prop :=
  s' = single_path_step dir_only single_path s (fst item)
  \/ s' = per_reference_step dir_only convert_to_forward s item.

(** What a run of turns over references among [refs] can have done between
    [s] and [s']: it appended [ns] to [success], [nf] to [failed], a log
    line for each of them, and [calls] to the trace, in at most [n]
    outcomes. *)
Definition grows (dir_only : bool) (refs : list string) (n : nat)
    (s s' : RelinkState W) : Prop :=
  exists (ns nf nl : list string) (calls : list HostCall),
    success s' = success s ++ ns
    /\ failed s' = failed s ++ nf
    /\ relink_log s' = relink_log s ++ nl
    /\ trace s' = trace s ++ calls
    /\ length nl = length ns + length nf
    /\ length ns + length nf <= n
    /\ relinked_refs s' = list_to_set ns ∪ relinked_refs s
    /\ (forall r, In r ns -> In r refs /\ exists p, In (CallReload p r) calls)
    /\ (forall e, In e nf -> exists r reason, In r refs /\ e = r +:+ ": " +:+ reason)
    /\ length (reloads calls) <= length ns + length nf
    /\ (reloads calls = [] -> world s' = world s)
    /\ (dir_only = false -> reloads calls = calls).

(** The references a batch goes through, by mode. *)
Definition batch_refs (use_single_path : bool) (mapping_dict : list (string * string))
    (w : W) : list string :=
  if use_single_path then broken_refs w else map fst mapping_dict.

End Program.

(** ** The copy-suffix pattern over Unicode

    A Python [str] is a sequence of Unicode code points, and in a [str]
    pattern [\d] matches every decimal digit of Unicode, of whatever
    script.  Here a string is a list of code points and the class of [\d]
    is the parameter [is_decimal].  The matcher is the one of [CopySuffix],
    which is its restriction to the code points below 256. *)

Module UniPattern.

Definition codepoint : Type := N.

Definition newline : codepoint := 10%N.
Definition open_brace : codepoint := 123%N.
Definition close_brace : codepoint := 125%N.

(** [.] *)
Definition is_dot (c : codepoint) : bool := negb (N.eqb c newline).

(** [$] *)
Definition at_end (s : list codepoint) : bool :=
  match s with
  | [] => true
  | [c] => N.eqb c newline
  | _ => false
  end.

Definition not_open (c : codepoint) : bool := negb (N.eqb c open_brace).

Definition then_empty (r : option (list codepoint))
    : option (list codepoint * list codepoint) :=
  match r with Some g => Some ([], g) | None => None end.

Section Matcher.

(** The class of [\d]. *)
Variable is_decimal : codepoint -> bool.

(** [\d*] then [}] then [$]; returns the digits consumed. *)
Fixpoint digits_close (s : list codepoint) : option (list codepoint) :=
  match s with
  | c :: s' =>
      if is_decimal c then
        match digits_close s' with
        | Some ds => Some (c :: ds)
        | None => None
        end
      else if N.eqb c close_brace then
        if at_end s' then Some [] else None
      else None
  | [] => None
  end.

(** [({\d+})$]: the text of group 2. *)
Definition group2_end (s : list codepoint) : option (list codepoint) :=
  match s with
  | c :: s' =>
      if N.eqb c open_brace then
        match digits_close s' with
        | Some (d :: ds) => Some (open_brace :: (d :: ds) ++ [close_brace])
        | _ => None
        end
      else None
  | [] => None
  end.

(** [.*] followed by the rest of the pattern, longest first. *)
Fixpoint dot_star (s : list codepoint) : option (list codepoint * list codepoint) :=
  match s with
  | c :: s' =>
      if is_dot c then
        match dot_star s' with
        | Some (p, g) => Some (c :: p, g)
        | None => then_empty (group2_end s)
        end
      else then_empty (group2_end s)
  | [] => None
  end.

(** [copy_suffix_pattern.match(s)]: groups 1 and 2 when it matches. *)
Definition pattern_match (s : list codepoint)
    : option (list codepoint * list codepoint) :=
  match s with
  | c :: s' =>
      if is_dot c then
        match dot_star s' with
        | Some (p, g) => Some (c :: p, g)
        | None => None
        end
      else None
  | [] => None
  end.

(** Lines 196-200 and 253-257: the clean name of a raw file name. *)
Definition clean_file_name (file_name_raw : list codepoint) : list codepoint :=
  match pattern_match file_name_raw with
  | Some (g1, _) => g1
  | None => file_name_raw
  end.

(** A brace-enclosed non-negative integer: one decimal digit or more
    between braces. *)
Definition is_number (digits : list codepoint) : Prop :=
  digits <> [] /\ forallb is_decimal digits = true.

Definition decoration (digits : list codepoint) : list codepoint :=
  open_brace :: digits ++ [close_brace].

(** A base the pattern can capture: not empty, and without a newline. *)
Definition is_base (base : list codepoint) : Prop :=
  base <> [] /\ forallb is_dot base = true.

(** The names the pattern matches: a base, the decoration, and at most a
    final newline. *)
Definition matched_shape (F base digits tail : list codepoint) : Prop :=
  is_base base /\ is_number digits /\ at_end tail = true
  /\ F = base ++ decoration digits ++ tail.

End Matcher.

(** The code points of a string of characters below 256. *)
Definition codes (s : string) : list codepoint :=
  map Ascii.N_of_ascii (list_ascii_of_string s).

Definition codes2 (r : string * string) : list codepoint * list codepoint :=
  (codes (fst r), codes (snd r)).

(** Decimal digits of two scripts, the ASCII ones and the Arabic-Indic
    ones (U+0660 to U+0669): a part of the class of [\d]. *)
Definition two_scripts (c : codepoint) : bool :=
  ((48 <=? c) && (c <=? 57) || (1632 <=? c) && (c <=? 1641))%N.

(** The Arabic-Indic digit three, U+0663. *)
Definition arabic_three : codepoint := 1635%N.

End UniPattern.

(** ** A query that raises

    [cmds.referenceQuery(ref, filename=True, unresolvedName=True)] can raise,
    as it does in the host for a reference node without a file.  The loop
    over the text fields calls it inside a [try] (lines 251-270); the loop
    over the shared path calls it at line 195, outside any [try].  The other
    queries are taken to return, as before. *)

Class QueryFaults (W : Type) : Type := {
  (** [Some e]: the query raises an exception whose [str] is [e];
      [None]: it returns [cmds_referenceQuery_unresolvedName w ref]. *)
  unresolvedName_raises : W -> string -> option string
}.

(** How a loop ended: it went through its references, or an exception
    left it. *)
Inductive Completion (W : Type) : Type :=
  | Finished (s : RelinkState W)
  | Aborted (e : string) (s : RelinkState W).
Arguments Finished {W} s.
Arguments Aborted {W} e s.

(** How [relink_references] ended: it returned, with the dialog it showed
    if any, or an exception left it. *)
Inductive BatchResult (W : Type) : Type :=
  | Completed (s : RelinkState W) (dialog : option string)
  | Uncaught (e : string) (s : RelinkState W).
Arguments Completed {W} s dialog.
Arguments Uncaught {W} e s.

Section Faults.

Context {W : Type} {HW : Host W} {QF : QueryFaults W}.

(** Lines 190-233 with the query of line 195 able to raise: nothing
    catches the exception. *)
Definition single_path_step_x (dir_only : bool) (single_path : string)
    (s : RelinkState W) (ref : string) : Completion W :=
  if negb (cmds_objExists (world s) ref) then Finished (skip_missing ref s)
  else if dir_only then
    match unresolvedName_raises (world s) ref with
    | Some e => Aborted e s
    | None => Finished (search_and_reload ref single_path s)
    end
  else Finished (attempt_reload ref single_path s).

(** Lines 236-295 with the query of line 252 able to raise: lines 266-270
    catch the exception and record it. *)
Definition per_reference_step_x (dir_only convert_to_forward : bool)
    (s : RelinkState W) (item : string * string) : RelinkState W :=
  let '(ref, text_field) := item in
  if negb (cmds_objExists (world s) ref) then skip_missing ref s
  else
    let user_input := PyStr.strip (cmds_textField_text (world s) text_field) in
    if negb (PyStr.truthy user_input) then s
    else
      let user_input := convert_slashes user_input convert_to_forward in
      if dir_only then
        let search_dir := user_input in
        if negb (os_path_isdir (world s) search_dir) then
          record_failure ref (reason_invalid_directory search_dir) s
        else
          match unresolvedName_raises (world s) ref with
          | Some e => record_failure ref ("Error processing path: " +:+ e) s
          | None => search_and_reload ref search_dir s
          end
      else attempt_reload ref user_input s.

(** A [for] loop whose body can raise. *)
Fixpoint loop_x (body : RelinkState W -> string -> Completion W)
    (refs : list string) (s : RelinkState W) : Completion W :=
  match refs with
  | ref :: rest =>
      match body s ref with
      | Finished s' => loop_x body rest s'
      | Aborted e s' => Aborted e s'
      end
  | [] => Finished s
  end.

(** Lines 184-295 *)
Definition run_batch_x (use_single_path : bool) (mapping_dict : list (string * string))
    (dir_only convert_to_forward : bool) (s : RelinkState W) : Completion W :=
  if use_single_path then
    if cmds_textField_exists (world s) "singlePathField" then
      let single_path := PyStr.strip (cmds_textField_text (world s) "singlePathField") in
      if PyStr.truthy single_path then
        let single_path := convert_slashes single_path convert_to_forward in
        loop_x (single_path_step_x dir_only single_path) (broken_refs (world s)) s
      else Finished s
    else Finished s
  else Finished (fold_left (per_reference_step_x dir_only convert_to_forward) mapping_dict s).

(** Lines 174-306 *)
Definition relink_references_x (use_single_path_state : bool)
    (mapping_dict : list (string * string))
    (dir_only_checkbox slash_convert_checkbox : string)
    (log : list string) (relinked : gset string) (w : W) : BatchResult W :=
  let dir_only := cmds_checkBox_value w dir_only_checkbox in
  let convert_to_forward := cmds_checkBox_value w slash_convert_checkbox in
  match run_batch_x use_single_path_state mapping_dict dir_only convert_to_forward
          (initial_state log relinked w) with
  | Finished s => Completed s (confirm_dialog (summary_message (success s) (failed s)))
  | Aborted e s => Uncaught e s
  end.

End Faults.

(** The test double with reference nodes whose query raises. *)
Module FlakyHost.

Record World : Type := mkWorld {
  scene : TestHost.World;
  orphans : list (string * string)    (* reference, and the error raised *)
}.

Definition reload (w : World) (new_path ref : string) : ReloadResult World :=
  match TestHost.reload (scene w) new_path ref with
  | Returned w' => Returned (mkWorld w' (orphans w))
  | Raised e w' => Raised e (mkWorld w' (orphans w))
  end.

#[global] Instance host : Host World := {
  cmds_ls_reference w := @cmds_ls_reference _ TestHost.host (scene w);
  cmds_objExists w := @cmds_objExists _ TestHost.host (scene w);
  cmds_referenceQuery_filename w := @cmds_referenceQuery_filename _ TestHost.host (scene w);
  cmds_referenceQuery_unresolvedName w :=
    @cmds_referenceQuery_unresolvedName _ TestHost.host (scene w);
  cmds_referenceQuery_isLoaded w := @cmds_referenceQuery_isLoaded _ TestHost.host (scene w);
  cmds_file_loadReference := reload;
  cmds_checkBox_value w := @cmds_checkBox_value _ TestHost.host (scene w);
  cmds_textField_exists w := @cmds_textField_exists _ TestHost.host (scene w);
  cmds_textField_text w := @cmds_textField_text _ TestHost.host (scene w);
  os_path_exists w := TestHost.exists_ (scene w);
  os_path_isdir w := TestHost.isdir (scene w);
  os_walk w := TestHost.walk_from (scene w);
  os_walk_notdir w top Hd := TestHost.walk_from_notdir (scene w) top Hd
}.

#[global] Instance faults : QueryFaults World := {
  unresolvedName_raises w ref := TestHost.assoc ref (orphans w)
}.

Definition no_file : string :=
  "Reference node 'ref1' is not associated with a reference file.".

(** Two broken references to [asset.ma]; the query raises for the first. *)
Definition two_refs : World :=
  mkWorld
    (TestHost.scene
       [TestHost.mkRef "ref1" "/old/asset.ma" "/old/asset.ma" "" false;
        TestHost.mkRef "ref2" "/old/asset.ma" "/old/asset.ma" "" false]
       "/lib" "/lib" true)
    [("ref1", no_file)].

End FlakyHost.

(** * Properties *)

(** ** Strings *)

Lemma append_assoc (a b c : string) : (a +:+ b) +:+ c = a +:+ (b +:+ c).
Proof. induction a as [|x a IH]; simpl; [reflexivity | now rewrite IH]. Qed.

Lemma append_nil_r (a : string) : a +:+ "" = a.
Proof. induction a as [|x a IH]; simpl; [reflexivity | now rewrite IH]. Qed.

Lemma append_length (a b : string) :
  String.length (a +:+ b) = String.length a + String.length b.
Proof. induction a as [|x a IH]; simpl; [reflexivity | now rewrite IH]. Qed.

Lemma truthy_true (s : string) : PyStr.truthy s = true <-> s <> "".
Proof. destruct s; simpl; split; intros; congruence. Qed.

Lemma truthy_false (s : string) : PyStr.truthy s = false <-> s = "".
Proof. destruct s; simpl; split; intros; congruence. Qed.

(** ** The copy-suffix pattern *)

Module CopySuffixFacts.
Import CopySuffix.

Lemma digit_not_close (c : ascii) : is_digit c = true -> Ascii.eqb c "}" = false.
Proof.
  intros Hd. destruct (Ascii.eqb_spec c "}") as [->|]; [|reflexivity].
  vm_compute in Hd. discriminate.
Qed.

Lemma digit_not_open (c : ascii) : is_digit c = true -> Ascii.eqb c "{" = false.
Proof.
  intros Hd. destruct (Ascii.eqb_spec c "{") as [->|]; [|reflexivity].
  vm_compute in Hd. discriminate.
Qed.

Lemma digits_close_complete (ds tail : string) :
  PyStr.all_chars is_digit ds = true -> at_end tail = true ->
  digits_close (ds +:+ "}" +:+ tail) = Some ds.
Proof.
  intros Hds Ht. induction ds as [|c ds IH]; simpl in *.
  - now rewrite Ht.
  - apply andb_true_iff in Hds as [Hc Hds]. rewrite Hc, (IH Hds). reflexivity.
Qed.

Lemma digits_close_sound (s ds : string) :
  digits_close s = Some ds ->
  PyStr.all_chars is_digit ds = true
  /\ exists tail, at_end tail = true /\ s = ds +:+ "}" +:+ tail.
Proof.
  revert ds. induction s as [|c s IH]; simpl; intros ds Hs; [discriminate|].
  destruct (is_digit c) eqn:Hc.
  - destruct (digits_close s) as [ds'|] eqn:Hr; [|discriminate].
    injection Hs as <-. destruct (IH ds' eq_refl) as (Hall & tail & Ht & ->).
    split; [simpl; now rewrite Hc | exists tail; split; [assumption | reflexivity]].
  - destruct (Ascii.eqb_spec c "}") as [->|]; [|discriminate].
    destruct (at_end s) eqn:Ht; [|discriminate].
    injection Hs as <-. split; [reflexivity | exists s; split; [assumption | reflexivity]].
Qed.

Lemma group2_end_complete (ds tail : string) :
  is_number ds -> at_end tail = true ->
  group2_end (decoration ds +:+ tail) = Some (decoration ds).
Proof.
  intros [Hne Hds] Ht. unfold decoration. simpl.
  rewrite append_assoc. rewrite (digits_close_complete ds tail Hds Ht).
  destruct ds; [congruence | reflexivity].
Qed.

Lemma group2_end_sound (s g : string) :
  group2_end s = Some g ->
  exists ds tail, is_number ds /\ at_end tail = true
                  /\ s = decoration ds +:+ tail /\ g = decoration ds.
Proof.
  destruct s as [|c s]; simpl; [discriminate|].
  destruct (Ascii.eqb_spec c "{") as [->|]; [|discriminate].
  destruct (digits_close s) as [[|d ds]|] eqn:Hr; try discriminate.
  intros Hg. injection Hg as <-.
  destruct (digits_close_sound _ _ Hr) as (Hall & tail & Ht & ->).
  exists (String d ds), tail. unfold decoration, is_number.
  repeat split; try assumption; try discriminate.
  simpl. now rewrite append_assoc.
Qed.

(** Without an opening brace nothing of the pattern's tail can match. *)
Lemma dot_star_no_brace (s : string) :
  PyStr.all_chars not_open s = true -> dot_star s = None.
Proof.
  induction s as [|c s IH]; simpl; [reflexivity|].
  intros Hs. apply andb_true_iff in Hs as [Hc Hs]. rewrite (IH Hs).
  unfold not_open in Hc. apply negb_true_iff in Hc. rewrite Hc.
  now destruct (is_dot c).
Qed.

Lemma all_chars_app (p : ascii -> bool) (a b : string) :
  PyStr.all_chars p (a +:+ b) = PyStr.all_chars p a && PyStr.all_chars p b.
Proof. induction a as [|c a IH]; simpl; [reflexivity | now rewrite IH, andb_assoc]. Qed.

Lemma all_chars_impl (p q : ascii -> bool) (s : string) :
  (forall c, p c = true -> q c = true) ->
  PyStr.all_chars p s = true -> PyStr.all_chars q s = true.
Proof.
  intros Hpq. induction s as [|c s IH]; simpl; [reflexivity|].
  intros Hs. apply andb_true_iff in Hs as [Hc Hs]. now rewrite (Hpq c Hc), (IH Hs).
Qed.

Lemma at_end_no_brace (tail : string) :
  at_end tail = true -> PyStr.all_chars not_open tail = true.
Proof.
  destruct tail as [|c [|d tail]]; simpl; try discriminate; [reflexivity|].
  destruct (Ascii.eqb_spec c PyStr.newline) as [->|]; [reflexivity | discriminate].
Qed.

(** After its opening brace a decoration has no other. *)
Lemma decoration_tail_no_brace (ds tail : string) :
  is_number ds -> at_end tail = true ->
  PyStr.all_chars not_open (ds +:+ "}" +:+ tail) = true.
Proof.
  intros [_ Hds] Ht. rewrite all_chars_app. apply andb_true_iff. split.
  - apply (all_chars_impl is_digit); [|assumption].
    intros c Hc. unfold not_open. now rewrite (digit_not_open c Hc).
  - simpl. now apply at_end_no_brace.
Qed.

Lemma dot_star_complete (p ds tail : string) :
  PyStr.all_chars is_dot p = true -> is_number ds -> at_end tail = true ->
  dot_star (p +:+ decoration ds +:+ tail) = Some (p, decoration ds).
Proof.
  intros Hp Hds Ht. induction p as [|c p IH].
  - pose proof (group2_end_complete ds tail Hds Ht) as Hg.
    unfold decoration in *. simpl in *. rewrite append_assoc in *.
    rewrite (dot_star_no_brace _ (decoration_tail_no_brace ds tail Hds Ht)).
    change (is_dot "{") with true. cbv iota. now rewrite Hg.
  - simpl in *. apply andb_true_iff in Hp as [Hc Hp]. now rewrite Hc, (IH Hp).
Qed.

Lemma dot_star_cons (c : ascii) (s : string) :
  dot_star (String c s) =
  if is_dot c then
    match dot_star s with
    | Some (p, g) => Some (String c p, g)
    | None => then_empty (group2_end (String c s))
    end
  else then_empty (group2_end (String c s)).
Proof. reflexivity. Qed.

Lemma dot_star_sound (s p g : string) :
  dot_star s = Some (p, g) ->
  PyStr.all_chars is_dot p = true
  /\ exists rest, s = p +:+ rest /\ group2_end rest = Some g.
Proof.
  revert p. induction s as [|c s IH]; intros p Hs; [discriminate|].
  rewrite dot_star_cons in Hs. destruct (is_dot c) eqn:Hc.
  - destruct (dot_star s) as [[p' g']|] eqn:Hr.
    + injection Hs as <- <-. destruct (IH p' eq_refl) as (Hp & rest & -> & Hg).
      split; [simpl; now rewrite Hc | exists rest; split; [reflexivity | assumption]].
    + destruct (group2_end (String c s)) as [g'|] eqn:Hg; [|discriminate].
      injection Hs as <- <-. split; [reflexivity|]. exists (String c s). now split.
  - destruct (group2_end (String c s)) as [g'|] eqn:Hg; [|discriminate].
    injection Hs as <- <-. split; [reflexivity|]. exists (String c s). now split.
Qed.

(** The pattern matches exactly the names of [matched_shape]. *)
Lemma pattern_match_complete (F base ds tail : string) :
  matched_shape F base ds tail ->
  pattern_match F = Some (base, decoration ds).
Proof.
  intros ([Hne Hb] & Hds & Ht & ->). destruct base as [|c base]; [congruence|].
  simpl in Hb. apply andb_true_iff in Hb as [Hc Hb].
  change (pattern_match (String c (base +:+ decoration ds +:+ tail))
          = Some (String c base, decoration ds)).
  unfold pattern_match. rewrite Hc.
  now rewrite (dot_star_complete base ds tail Hb Hds Ht).
Qed.

Lemma pattern_match_sound (F g1 g2 : string) :
  pattern_match F = Some (g1, g2) ->
  exists ds tail, matched_shape F g1 ds tail /\ g2 = decoration ds.
Proof.
  destruct F as [|c F]; simpl; [discriminate|].
  destruct (is_dot c) eqn:Hc; [|discriminate].
  destruct (dot_star F) as [[p g]|] eqn:Hr; [|discriminate].
  intros Hg. injection Hg as <- <-.
  destruct (dot_star_sound _ _ _ Hr) as (Hp & rest & -> & Hg).
  destruct (group2_end_sound _ _ Hg) as (ds & tail & Hds & Ht & -> & ->).
  exists ds, tail. split; [|reflexivity].
  split; [split; [discriminate | simpl; now rewrite Hc]|].
  split; [assumption|]. split; [assumption | reflexivity].
Qed.

End CopySuffixFacts.

(** The pattern does not match a name that is only the decoration. *)
Lemma pattern_match_decoration_only (digits : string) :
  CopySuffix.is_number digits ->
  CopySuffix.pattern_match (CopySuffix.decoration digits) = None.
Proof.
  intros Hd. unfold CopySuffix.decoration. simpl.
  pose proof (CopySuffixFacts.decoration_tail_no_brace digits "" Hd eq_refl) as Hno.
  change (digits +:+ "}" +:+ "") with (digits +:+ "}") in Hno.
  now rewrite (CopySuffixFacts.dot_star_no_brace _ Hno).
Qed.

(** The pattern on the characters below 256, where the decimal digits are
    the ASCII ones: a name made of a non-empty base without a newline, the
    decoration and at most a final newline is stripped to its base; a name
    of no such shape is returned unchanged; and so is a name that is only
    the decoration.  The statement for all of Unicode is
    [strip_copy_suffix_spec]. *)
Theorem clean_file_name_spec (F : string) :
  (forall base digits tail,
      CopySuffix.matched_shape F base digits tail ->
      CopySuffix.clean_file_name F = base)
  /\ ((forall base digits tail, ~ CopySuffix.matched_shape F base digits tail) ->
      CopySuffix.clean_file_name F = F)
  /\ (forall digits,
      CopySuffix.is_number digits -> F = CopySuffix.decoration digits ->
      CopySuffix.clean_file_name F = F).
Proof.
  unfold CopySuffix.clean_file_name. split; [|split].
  - intros base digits tail Hs.
    now rewrite (CopySuffixFacts.pattern_match_complete _ _ _ _ Hs).
  - intros Hno. destruct (CopySuffix.pattern_match F) as [[g1 g2]|] eqn:Hm; [|reflexivity].
    destruct (CopySuffixFacts.pattern_match_sound _ _ _ Hm) as (ds & tail & Hs & _).
    destruct (Hno _ _ _ Hs).
  - intros digits Hd ->. now rewrite (pattern_match_decoration_only digits Hd).
Qed.

Lemma clean_file_name_spec_witness :
  CopySuffix.clean_file_name "asset.ma{2}" = "asset.ma"
  /\ CopySuffix.clean_file_name "asset{2}.ma" = "asset{2}.ma"
  /\ CopySuffix.clean_file_name "{3}" = "{3}".
Proof.
  split; [|split].
  - apply (proj1 (clean_file_name_spec "asset.ma{2}") "asset.ma" "2" "").
    repeat split; try reflexivity; discriminate.
  - apply (proj1 (proj2 (clean_file_name_spec "asset{2}.ma"))).
    intros base digits tail Hs.
    apply CopySuffixFacts.pattern_match_complete in Hs. vm_compute in Hs. discriminate.
  - apply (proj2 (proj2 (clean_file_name_spec "{3}")) "3"); [|reflexivity].
    split; [discriminate | reflexivity].
Defined.

(** C1 as stated fails for the empty base: the name [{3}] is the empty
    base followed by the decoration, and it is not stripped to the empty
    base. *)
Lemma clean_file_name_empty_base_counterexample :
  ~ (forall base digits,
        CopySuffix.is_number digits ->
        CopySuffix.clean_file_name (base +:+ CopySuffix.decoration digits) = base).
Proof.
  intros Hall. specialize (Hall "" "3").
  assert (Hn : CopySuffix.is_number "3") by (split; [discriminate | reflexivity]).
  specialize (Hall Hn). vm_compute in Hall. discriminate.
Qed.

(** The base cannot hold a newline, and a final newline after the
    decoration is dropped with it. *)
Example clean_file_name_newlines :
  CopySuffix.clean_file_name ("a" +:+ PyStr.nl +:+ "b{2}") = "a" +:+ PyStr.nl +:+ "b{2}"
  /\ CopySuffix.clean_file_name ("asset.ma{2}" +:+ PyStr.nl) = "asset.ma".
Proof. split; reflexivity. Qed.

(** ** One turn of a loop *)

Section StepFacts.

Context {W : Type} `{Host W}.

Implicit Types (s : RelinkState W) (ref : string).

Lemma replace_backslash_truthy (u : string) :
  PyStr.truthy (PyStr.replace_backslash u) = PyStr.truthy u.
Proof. now destruct u. Qed.

Lemma convert_slashes_truthy (u : string) (b : bool) :
  PyStr.truthy (convert_slashes u b) = PyStr.truthy u.
Proof. destruct b; [apply replace_backslash_truthy | reflexivity]. Qed.


Lemma attempt_reload_raised ref new_path s e w' :
  new_path <> "" -> os_path_exists (world s) new_path = true ->
  cmds_file_loadReference (world s) new_path ref = Raised e w' ->
  attempt_reload ref new_path s =
  record_failure ref (reason_host_error e)
    (set_world w' (log_call (CallReload new_path ref) s)).
Proof.
  intros Hne He Hr. unfold attempt_reload.
  apply truthy_true in Hne. now rewrite Hne, He, Hr.
Qed.


Lemma attempt_reload_loaded ref new_path s w' :
  new_path <> "" -> os_path_exists (world s) new_path = true ->
  cmds_file_loadReference (world s) new_path ref = Returned w' ->
  cmds_referenceQuery_isLoaded w' ref = true ->
  attempt_reload ref new_path s =
  record_success ref (cmds_referenceQuery_filename w' ref)
    (set_world w' (log_call (CallReload new_path ref) s)).
Proof.
  intros Hne He Hr Hl. unfold attempt_reload.
  apply truthy_true in Hne. now rewrite Hne, He, Hr, Hl.
Qed.

Lemma candidate_is_dir (user_path ref p : string) (w : W) :
  candidate_of true user_path ref w = Some p -> os_path_isdir w user_path = true.
Proof.
  unfold candidate_of, find_file_in_directory. intros Hc.
  destruct (os_path_isdir w user_path) eqn:Hd; [reflexivity|].
  rewrite (os_walk_notdir w user_path Hd) in Hc. discriminate.
Qed.

Lemma candidate_truthy (dir_only : bool) (user_path ref p : string) (w : W) :
  user_path <> "" -> candidate_of dir_only user_path ref w = Some p -> p <> "".
Proof.
  unfold candidate_of. intros Hu Hc. destruct dir_only.
  - destruct (find_file_in_directory _ _ _) as [q|]; [|discriminate].
    destruct (PyStr.truthy q) eqn:Hq; [|discriminate].
    injection Hc as <-. now apply truthy_true.
  - now injection Hc as <-.
Qed.

Lemma single_path_step_candidate (dir_only : bool) (user_path ref p : string) s :
  cmds_objExists (world s) ref = true ->
  candidate_of dir_only user_path ref (world s) = Some p ->
  single_path_step dir_only user_path s ref =
  attempt_reload ref p (searched dir_only user_path s).
Proof.
  intros Hx Hc. unfold single_path_step, search_and_reload, searched, candidate_of in *.
  rewrite Hx. simpl. destruct dir_only.
  - destruct (find_file_in_directory _ _ _) as [q|]; [|discriminate].
    destruct (PyStr.truthy q) eqn:Hq; [|discriminate]. now injection Hc as <-.
  - now injection Hc as <-.
Qed.

Lemma per_reference_step_candidate (dir_only convert : bool)
    (text_field user_path ref p : string) s :
  cmds_objExists (world s) ref = true ->
  PyStr.strip (cmds_textField_text (world s) text_field) <> "" ->
  user_input_of convert (world s) text_field = user_path ->
  candidate_of dir_only user_path ref (world s) = Some p ->
  per_reference_step dir_only convert s (ref, text_field) =
  attempt_reload ref p (searched dir_only user_path s).
Proof.
  intros Hx Hne Hu Hc. unfold per_reference_step. rewrite Hx. simpl.
  apply truthy_true in Hne. rewrite Hne. simpl.
  unfold user_input_of in Hu. rewrite Hu. destruct dir_only.
  - rewrite (candidate_is_dir _ _ _ _ Hc). simpl.
    unfold search_and_reload, searched, candidate_of in *.
    destruct (find_file_in_directory _ _ _) as [q|]; [|discriminate].
    destruct (PyStr.truthy q) eqn:Hq; [|discriminate]. now injection Hc as <-.
  - unfold candidate_of in Hc. now injection Hc as <-.
Qed.

Lemma runs_step_candidate (dir_only : bool) (user_path ref p : string) s s' :
  cmds_objExists (world s) ref = true ->
  runs_step dir_only user_path ref s s' ->
  candidate_of dir_only user_path ref (world s) = Some p ->
  s' = attempt_reload ref p (searched dir_only user_path s).
Proof.
  intros Hx [[_ ->]|(convert & tf & Hne & Hu & ->)] Hc.
  - now apply single_path_step_candidate.
  - now apply per_reference_step_candidate with (user_path := user_path).
Qed.

Lemma runs_step_path (dir_only : bool) (user_path ref : string) s s' :
  runs_step dir_only user_path ref s s' -> user_path <> "".
Proof.
  intros [[Hu _]|(convert & tf & Hne & <- & _)]; [assumption|].
  unfold user_input_of. apply truthy_true. rewrite convert_slashes_truthy.
  now apply truthy_true.
Qed.

(** Without a candidate the step records a failure and reloads nothing. *)
Lemma runs_step_no_candidate (dir_only : bool) (user_path ref : string) s s' :
  cmds_objExists (world s) ref = true ->
  runs_step dir_only user_path ref s s' ->
  candidate_of dir_only user_path ref (world s) = None ->
  exists reason s0,
    s' = record_failure ref reason s0 /\ (s0 = s \/ s0 = log_call (CallWalk user_path) s).
Proof.
  intros Hx Hr Hc. destruct dir_only; [|discriminate].
  assert (Hs : search_and_reload ref user_path s =
               record_failure ref (reason_not_found (clean_name_of (world s) ref) user_path)
                 (log_call (CallWalk user_path) s)).
  { unfold search_and_reload, candidate_of in *.
    destruct (find_file_in_directory _ _ _) as [q|]; [|reflexivity].
    destruct (PyStr.truthy q); [discriminate | reflexivity]. }
  destruct Hr as [[_ ->]|(convert & tf & Hne & Hu & ->)].
  - unfold single_path_step. rewrite Hx. simpl. rewrite Hs. eauto.
  - unfold per_reference_step. rewrite Hx. simpl.
    apply truthy_true in Hne. rewrite Hne. simpl.
    unfold user_input_of in Hu. rewrite Hu.
    destruct (os_path_isdir (world s) user_path); simpl; [rewrite Hs|]; eauto.
Qed.

(** The outcome of the reload block. *)
Lemma attempt_reload_shape ref p s :
  (exists reason, one_failure ref reason s (attempt_reload ref p s))
  \/ exists w',
       p <> "" /\ os_path_exists (world s) p = true
       /\ cmds_file_loadReference (world s) p ref = Returned w'
       /\ cmds_referenceQuery_isLoaded w' ref = true
       /\ one_success ref s (attempt_reload ref p s).
Proof.
  unfold attempt_reload.
  destruct (PyStr.truthy p) eqn:Hp; simpl;
    [|left; eexists; repeat split; reflexivity].
  destruct (os_path_exists (world s) p) eqn:He;
    [|left; eexists; repeat split; reflexivity].
  destruct (cmds_file_loadReference (world s) p ref) as [w'|e w'] eqn:Hr;
    [|left; eexists; repeat split; reflexivity].
  destruct (cmds_referenceQuery_isLoaded w' ref) eqn:Hl;
    [|left; eexists; repeat split; reflexivity].
  right. exists w'. apply truthy_true in Hp.
  repeat split; try assumption; try reflexivity. eexists; reflexivity.
Qed.

End StepFacts.

(** ** The loops of [relink_references] *)

Section LoopFacts.

Context {W : Type} `{Host W}.

Implicit Types (s : RelinkState W) (ref : string).

Lemma one_failure_searched (d : bool) (u ref reason : string) s s' :
  one_failure ref reason (searched d u s) s' <-> one_failure ref reason s s'.
Proof. unfold one_failure, searched. now destruct d. Qed.

Lemma one_success_searched (d : bool) (u ref : string) s s' :
  one_success ref (searched d u s) s' <-> one_success ref s s'.
Proof. unfold one_success, searched. now destruct d. Qed.

Lemma skip_missing_nothing ref s : nothing_recorded s (skip_missing ref s).
Proof. repeat split. Qed.

(** Every turn of a loop on a live reference records one outcome. *)
Lemma runs_step_shape (dir_only : bool) (user_path ref : string) s s' :
  cmds_objExists (world s) ref = true ->
  runs_step dir_only user_path ref s s' ->
  (exists reason, one_failure ref reason s s')
  \/ exists p w',
       candidate_of dir_only user_path ref (world s) = Some p
       /\ os_path_exists (world s) p = true
       /\ cmds_file_loadReference (world s) p ref = Returned w'
       /\ cmds_referenceQuery_isLoaded w' ref = true
       /\ one_success ref s s'.
Proof.
  intros Hx Hr.
  destruct (candidate_of dir_only user_path ref (world s)) as [p|] eqn:Hc.
  - rewrite (runs_step_candidate _ _ _ _ _ _ Hx Hr Hc).
    destruct (attempt_reload_shape ref p (searched dir_only user_path s))
      as [[reason Hf]|(w' & Hp & He & Hl & Hq & Hs)].
    + left. exists reason. now apply one_failure_searched in Hf.
    + right. exists p, w'. apply one_success_searched in Hs.
      unfold searched in He, Hl. destruct dir_only; simpl in He, Hl; auto.
  - destruct (runs_step_no_candidate _ _ _ _ _ Hx Hr Hc) as (reason & s0 & -> & Hs0).
    left. exists reason. destruct Hs0 as [->| ->]; repeat split.
Qed.


(** C5.  With a directory expected, the loop over the text fields checks
    the directory first: a path that is no directory gives one failure
    with the text [Provided directory does not exist], in [failed] and in
    the log, and no walk and no reload are issued.  The loop over the shared
    path has no such check: the same path goes to the search, the walk is
    issued and finds nothing, and the failure recorded is the one with the
    text [Could not find]. *)
Theorem directory_check_asymmetry (convert : bool) (text_field single_path ref : string) s :
  cmds_objExists (world s) ref = true ->
  (PyStr.strip (cmds_textField_text (world s) text_field) <> "" ->
   os_path_isdir (world s) (user_input_of convert (world s) text_field) = false ->
   let s' := per_reference_step true convert s (ref, text_field) in
   let search_dir := user_input_of convert (world s) text_field in
   success s' = success s
   /\ failed s' =
      failed s ++ [ref +:+ ": " +:+ "Provided directory does not exist: " +:+ search_dir]
   /\ relink_log s' =
      relink_log s ++ ["Failed to relink " +:+ ref +:+ ": "
                       +:+ "Provided directory does not exist: " +:+ search_dir]
   /\ relinked_refs s' = relinked_refs s
   /\ trace s' = trace s
   /\ world s' = world s)
  /\ (os_path_isdir (world s) single_path = false ->
      let s' := single_path_step true single_path s ref in
      let clean_file_name := clean_name_of (world s) ref in
      success s' = success s
      /\ failed s' =
         failed s ++ [ref +:+ ": " +:+ "Could not find '" +:+ clean_file_name
                      +:+ "' in " +:+ single_path +:+ " (and subdirs)"]
      /\ relink_log s' =
         relink_log s ++ ["Failed to relink " +:+ ref +:+ ": " +:+ "Could not find '"
                          +:+ clean_file_name +:+ "' in " +:+ single_path
                          +:+ " (and subdirs)"]
      /\ relinked_refs s' = relinked_refs s
      /\ trace s' = trace s ++ [CallWalk single_path]
      /\ world s' = world s).
Proof.
  intros Hx. split.
  - intros Hne Hd. unfold per_reference_step. rewrite Hx. simpl.
    apply truthy_true in Hne. rewrite Hne. simpl.
    unfold user_input_of in *. rewrite Hd. simpl. repeat split.
  - intros Hd. unfold single_path_step, search_and_reload, find_file_in_directory.
    rewrite Hx. simpl. rewrite (os_walk_notdir _ _ Hd). simpl. repeat split.
Qed.


(** A turn of either loop leaves the record alone, or adds one outcome
    with its log line. *)
Lemma step_trichotomy (dir_only : bool) (user_path ref : string) s s' :
  runs_step dir_only user_path ref s s' ->
  nothing_recorded s s'
  \/ one_success ref s s'
  \/ exists reason, one_failure ref reason s s'.
Proof.
  intros Hr. destruct (cmds_objExists (world s) ref) eqn:Hx.
  - destruct (runs_step_shape _ _ _ _ _ Hx Hr) as [Hf|(p & w' & _ & _ & _ & _ & Hs)]; auto.
  - left. destruct Hr as [[_ ->]|(convert & tf & _ & _ & ->)];
      unfold single_path_step, per_reference_step; rewrite Hx; apply skip_missing_nothing.
Qed.

(** With queries that return, no turn of a loop stops the batch.  A turn
    on a live reference records exactly one outcome with its log line; a
    reload that raises becomes a failure that carries the text of the host
    error; and whatever a turn recorded, the loop goes on with the
    references that follow.  What a query that raises does is in
    [shared_path_query_error_aborts]. *)
Theorem batch_never_aborts (dir_only convert : bool) (user_path : string) :
  (forall ref s s',
      cmds_objExists (world s) ref = true ->
      runs_step dir_only user_path ref s s' ->
      (one_success ref s s' \/ exists reason, one_failure ref reason s s')
      /\ outcomes s' = S (outcomes s)
      /\ length (relink_log s') = S (length (relink_log s)))
  /\ (forall ref s s' p e w',
      cmds_objExists (world s) ref = true ->
      runs_step dir_only user_path ref s s' ->
      candidate_of dir_only user_path ref (world s) = Some p ->
      os_path_exists (world s) p = true ->
      cmds_file_loadReference (world s) p ref = Raised e w' ->
      one_failure ref (reason_host_error e) s s' /\ world s' = w')
  /\ (forall before ref after s,
      fold_left (single_path_step dir_only user_path) (before ++ ref :: after) s =
      fold_left (single_path_step dir_only user_path) after
        (single_path_step dir_only user_path
           (fold_left (single_path_step dir_only user_path) before s) ref))
  /\ (forall before item after s,
      fold_left (per_reference_step dir_only convert) (before ++ item :: after) s =
      fold_left (per_reference_step dir_only convert) after
        (per_reference_step dir_only convert
           (fold_left (per_reference_step dir_only convert) before s) item)).
Proof.
  split; [|split; [|split]].
  - intros ref s s' Hx Hr.
    destruct (runs_step_shape _ _ _ _ _ Hx Hr)
      as [[reason Hf]|(p & w' & _ & _ & _ & _ & Hs)].
    + split; [right; now exists reason|].
      destruct Hf as (Hs & Hf & Hl & _). unfold outcomes.
      rewrite Hs, Hf, Hl, !length_app. simpl. lia.
    + split; [now left|].
      destruct Hs as (Hs & Hf & [path Hl] & _). unfold outcomes.
      rewrite Hs, Hf, Hl, !length_app. simpl. lia.
  - intros ref s s' p e w' Hx Hr Hc He Hl.
    pose proof (candidate_truthy _ _ _ _ _ (runs_step_path _ _ _ _ _ Hr) Hc) as Hp.
    rewrite (runs_step_candidate _ _ _ _ _ _ Hx Hr Hc).
    assert (He' : os_path_exists (world (searched dir_only user_path s)) p = true)
      by (unfold searched; now destruct dir_only).
    assert (Hl' : cmds_file_loadReference (world (searched dir_only user_path s)) p ref
                  = Raised e w') by (unfold searched; now destruct dir_only).
    rewrite (attempt_reload_raised _ _ _ _ _ Hp He' Hl').
    unfold searched. destruct dir_only; repeat split.
  - intros before ref after s. now rewrite fold_left_app.
  - intros before item after s. now rewrite fold_left_app.
Qed.

(** C8.  A reference the host no longer knows is passed over: the turn
    records no outcome and no log line, issues no call, and the loop goes
    on with the references that follow. *)
Theorem missing_reference_skipped (dir_only convert : bool)
    (single_path text_field ref : string) s :
  cmds_objExists (world s) ref = false ->
  nothing_recorded s (single_path_step dir_only single_path s ref)
  /\ nothing_recorded s (per_reference_step dir_only convert s (ref, text_field))
  /\ (forall rest,
      fold_left (single_path_step dir_only single_path) (ref :: rest) s =
      fold_left (single_path_step dir_only single_path) rest (skip_missing ref s))
  /\ (forall rest,
      fold_left (per_reference_step dir_only convert) ((ref, text_field) :: rest) s =
      fold_left (per_reference_step dir_only convert) rest (skip_missing ref s)).
Proof.
  intros Hx. unfold single_path_step, per_reference_step.
  repeat split; intros; simpl; unfold single_path_step, per_reference_step;
    rewrite Hx; reflexivity.
Qed.

Lemma lstrip_blank (t : string) :
  PyStr.all_chars PyStr.py_isspace t = true -> PyStr.lstrip t = "".
Proof.
  induction t as [|c t IH]; simpl; [reflexivity|].
  intros Ht. apply andb_true_iff in Ht as [Hc Ht]. now rewrite Hc, IH.
Qed.

Lemma strip_blank (t : string) :
  PyStr.all_chars PyStr.py_isspace t = true -> PyStr.strip t = "".
Proof. intros Ht. unfold PyStr.strip. now rewrite lstrip_blank. Qed.

Lemma rstrip_empty (t : string) :
  PyStr.rstrip t = "" -> PyStr.all_chars PyStr.py_isspace t = true.
Proof.
  induction t as [|c t IH]; simpl; [reflexivity|].
  destruct (PyStr.rstrip t); [|discriminate].
  destruct (PyStr.py_isspace c); [|discriminate]. intros _. now rewrite IH.
Qed.

Lemma lstrip_all_space (t : string) :
  PyStr.all_chars PyStr.py_isspace (PyStr.lstrip t) = true ->
  PyStr.all_chars PyStr.py_isspace t = true.
Proof.
  induction t as [|c t IH]; simpl; [reflexivity|].
  destruct (PyStr.py_isspace c) eqn:Hc; simpl; [assumption|].
  now rewrite Hc.
Qed.

(** The text strips to nothing exactly when it is empty or all
    whitespace. *)
Lemma strip_empty_iff (t : string) :
  PyStr.strip t = "" <-> PyStr.all_chars PyStr.py_isspace t = true.
Proof.
  split; [|apply strip_blank].
  intros Hs. apply lstrip_all_space. now apply rstrip_empty.
Qed.

(** C10.  In the loop over the text fields, a field that is empty or all
    whitespace gives no outcome and no log line for its reference, and the
    loop goes on with the references that follow. *)
Theorem blank_input_skipped (dir_only convert : bool) (text_field ref : string) s :
  PyStr.all_chars PyStr.py_isspace (cmds_textField_text (world s) text_field) = true ->
  let s' := per_reference_step dir_only convert s (ref, text_field) in
  nothing_recorded s s'
  /\ (cmds_objExists (world s) ref = true -> s' = s)
  /\ (forall rest,
      fold_left (per_reference_step dir_only convert) ((ref, text_field) :: rest) s =
      fold_left (per_reference_step dir_only convert) rest s').
Proof.
  intros Hb. apply strip_blank in Hb.
  assert (Hs : per_reference_step dir_only convert s (ref, text_field) =
               if cmds_objExists (world s) ref then s else skip_missing ref s).
  { unfold per_reference_step. rewrite Hb. simpl.
    now destruct (cmds_objExists (world s) ref). }
  cbv zeta. split; [|split; [|intros rest; reflexivity]]; rewrite Hs.
  - destruct (cmds_objExists (world s) ref); repeat split.
  - now intros ->.
Qed.

End LoopFacts.

(** ** The summary *)

Lemma take_length (n : nat) (m : string) :
  n <= String.length m -> String.length (PyStr.take n m) = n.
Proof.
  unfold PyStr.take. revert n. induction m as [|c m IH]; intros [|n] Hn; simpl in *;
    try reflexivity; try lia.
  rewrite IH; [reflexivity | lia].
Qed.

Lemma take_prefix (n : nat) (m : string) : exists rest, m = PyStr.take n m +:+ rest.
Proof.
  unfold PyStr.take. revert n. induction m as [|c m IH]; intros [|n]; simpl.
  - now exists "".
  - now exists "".
  - now exists (String c m).
  - destruct (IH n) as [rest Hr]. exists rest. now rewrite <- Hr.
Qed.

Lemma summary_message_empty (success failed : list string) :
  summary_message success failed = "" <-> success = [] /\ failed = [].
Proof.
  unfold summary_message. destruct success, failed; simpl; split;
    try (intros [? ?]); try congruence; try discriminate; auto.
Qed.

Section Summary.

Context {W : Type} `{Host W}.

(** C9.  A summary longer than 1000 characters is shown cut to its first
    1000 characters, with a newline and the words [...(message truncated)]
    after them, 1023 characters in all; a summary of at most 1000
    characters is shown as it is.  (A batch without outcomes has no summary
    and no dialog.) *)
Theorem summary_truncated (use_single_path : bool) (mapping_dict : list (string * string))
    (dir_only_checkbox slash_convert_checkbox : string)
    (log : list string) (relinked : gset string) (w : W) :
  let result := relink_references use_single_path mapping_dict
                  dir_only_checkbox slash_convert_checkbox log relinked w in
  let message := summary_message (success (fst result)) (failed (fst result)) in
  (1000 < String.length message ->
   exists shown,
     snd result = Some shown
     /\ shown = PyStr.take 1000 message
                +:+ String "010"%char "...(message truncated)"
     /\ String.length (PyStr.take 1000 message) = 1000
     /\ (exists rest, message = PyStr.take 1000 message +:+ rest)
     /\ String.length shown = 1023)
  /\ (message <> "" -> String.length message <= 1000 -> snd result = Some message)
  /\ (message = "" <-> success (fst result) = [] /\ failed (fst result) = [])
  /\ (message = "" -> snd result = None).
Proof.
  cbv zeta. unfold relink_references. cbn [fst snd].
  set (m := summary_message _ _). unfold confirm_dialog, truncate_message.
  split; [|split; [|split]].
  - intros Hlen. assert (Hne : PyStr.truthy m = true).
    { apply truthy_true. intros Hm. rewrite Hm in Hlen. simpl in Hlen. lia. }
    rewrite Hne. assert (Hb : (max_len <? String.length m)%nat = true)
      by (apply Nat.ltb_lt; unfold max_len; lia).
    rewrite Hb. eexists. split; [reflexivity|].
    assert (Htake : String.length (PyStr.take 1000 m) = 1000)
      by (apply take_length; lia).
    split; [reflexivity|]. split; [assumption|]. split; [apply take_prefix|].
    unfold max_len. rewrite append_length, Htake. reflexivity.
  - intros Hne Hlen. apply truthy_true in Hne. rewrite Hne.
    assert (Hb : (max_len <? String.length m)%nat = false)
      by (apply Nat.ltb_ge; unfold max_len; lia).
    now rewrite Hb.
  - apply summary_message_empty.
  - intros ->. reflexivity.
Qed.

End Summary.

(** ** The batch as a whole *)

Section BatchFacts.

Context {W : Type} `{Host W}.





(** C2 (as amended).  Scenario A with the copy number where the pattern
    looks for it, after the whole file name: for the one broken reference
    with the file name [asset.ma{2}], the shared path [/lib] and the file
    [/lib/sub/asset.ma] under it, the clean name is [asset.ma], the search
    finds [/lib/sub/asset.ma], the reload is issued for that path, and,
    with a host that loads it, the outcome is a success. *)
Theorem scenario_A (mapping_dict : list (string * string))
    (dir_only_checkbox slash_convert_checkbox ref : string)
    (log : list string) (relinked : gset string) (w w' : W) :
  cmds_checkBox_value w dir_only_checkbox = true ->
  cmds_textField_exists w "singlePathField" = true ->
  convert_slashes (PyStr.strip (cmds_textField_text w "singlePathField"))
    (cmds_checkBox_value w slash_convert_checkbox) = "/lib" ->
  broken_refs w = [ref] ->
  cmds_objExists w ref = true ->
  OsPath.basename (cmds_referenceQuery_unresolvedName w ref) = "asset.ma{2}" ->
  os_walk w "/lib" = [("/lib", ["sub"], []); ("/lib/sub", [], ["asset.ma"])] ->
  os_path_exists w "/lib/sub/asset.ma" = true ->
  cmds_file_loadReference w "/lib/sub/asset.ma" ref = Returned w' ->
  cmds_referenceQuery_isLoaded w' ref = true ->
  let result := relink_references true mapping_dict dir_only_checkbox
                  slash_convert_checkbox log relinked w in
  clean_name_of w ref = "asset.ma"
  /\ candidate_of true "/lib" ref w = Some "/lib/sub/asset.ma"
  /\ trace (fst result) = [CallWalk "/lib"; CallReload "/lib/sub/asset.ma" ref]
  /\ success (fst result) = [ref]
  /\ failed (fst result) = []
  /\ relinked_refs (fst result) = {[ref]} ∪ relinked
  /\ world (fst result) = w'.
Proof.
  intros Hd Hf Hp Hb Hx Hn Hw He Hl Hq.
  assert (Hclean : clean_name_of w ref = "asset.ma").
  { unfold clean_name_of. now rewrite Hn. }
  assert (Hcand : candidate_of true "/lib" ref w = Some "/lib/sub/asset.ma").
  { unfold candidate_of, find_file_in_directory. now rewrite Hclean, Hw. }
  assert (Hne : PyStr.truthy (PyStr.strip (cmds_textField_text w "singlePathField")) = true).
  { rewrite <- (convert_slashes_truthy _ (cmds_checkBox_value w slash_convert_checkbox)).
    now rewrite Hp. }
  cbv zeta. unfold relink_references, run_batch. cbn [fst snd].
  rewrite Hd. cbn [world initial_state]. rewrite Hf, Hne, Hp, Hb. cbn [fold_left].
  rewrite (single_path_step_candidate true "/lib" ref "/lib/sub/asset.ma"
             (initial_state log relinked w) Hx Hcand).
  rewrite (attempt_reload_loaded ref "/lib/sub/asset.ma" _ w');
    [| discriminate | assumption | assumption | assumption].
  repeat split; assumption.
Qed.

End BatchFacts.

(** ** The scenarios, on the test double *)

Import TestHost.

(** Scenario A, with the copy number after the file name. *)
Lemma scenario_A_witness :
  let result := relink_references true [] "dirOnly" "slashConvert" [] ∅ scene_A in
  clean_name_of scene_A "ref1" = "asset.ma"
  /\ candidate_of true "/lib" "ref1" scene_A = Some "/lib/sub/asset.ma"
  /\ trace (fst result) = [CallWalk "/lib"; CallReload "/lib/sub/asset.ma" "ref1"]
  /\ success (fst result) = ["ref1"]
  /\ failed (fst result) = []
  /\ relinked_refs (fst result) = {["ref1"]} ∪ ∅
  /\ world (fst result) = after_reload scene_A "/lib/sub/asset.ma" "ref1".
Proof.
  apply (scenario_A [] "dirOnly" "slashConvert" "ref1" [] ∅ scene_A
           (after_reload scene_A "/lib/sub/asset.ma" "ref1"));
    vm_compute; reflexivity.
Defined.

(** C2 as stated fails: with the file name [asset{2}.ma] the pattern does
    not match, the name searched for is [asset{2}.ma], nothing is found
    under [/lib], no reload is issued and the outcome is a failure. *)
Lemma scenario_A_stated_counterexample :
  let result := relink_references true [] "dirOnly" "slashConvert" [] ∅ scene_A_stated in
  OsPath.basename (cmds_referenceQuery_unresolvedName scene_A_stated "ref1") = "asset{2}.ma"
  /\ os_walk scene_A_stated "/lib" = [("/lib", ["sub"], []); ("/lib/sub", [], ["asset.ma"])]
  /\ clean_name_of scene_A_stated "ref1" = "asset{2}.ma"
  /\ candidate_of true "/lib" "ref1" scene_A_stated = None
  /\ trace (fst result) = [CallWalk "/lib"]
  /\ success (fst result) = []
  /\ failed (fst result) = ["ref1: Could not find 'asset{2}.ma' in /lib (and subdirs)"].
Proof. vm_compute. repeat split; reflexivity. Qed.




(** The two loops on a path that is no directory. *)
Lemma directory_check_asymmetry_witness :
  let s := initial_state [] ∅ scene_no_dir in
  (failed (per_reference_step true true s ("ref1", "tf1"))
     = ["ref1: Provided directory does not exist: /nowhere"]
   /\ relink_log (per_reference_step true true s ("ref1", "tf1"))
      = ["Failed to relink ref1: Provided directory does not exist: /nowhere"]
   /\ trace (per_reference_step true true s ("ref1", "tf1")) = [])
  /\ (failed (single_path_step true "/nowhere" s "ref1")
        = ["ref1: Could not find 'asset.ma' in /nowhere (and subdirs)"]
      /\ relink_log (single_path_step true "/nowhere" s "ref1")
         = ["Failed to relink ref1: Could not find 'asset.ma' in /nowhere (and subdirs)"]
      /\ trace (single_path_step true "/nowhere" s "ref1") = [CallWalk "/nowhere"]).
Proof.
  cbv zeta.
  set (s := initial_state [] ∅ scene_no_dir).
  assert (Hx : cmds_objExists (world s) "ref1" = true) by reflexivity.
  pose proof (directory_check_asymmetry true "tf1" "/nowhere" "ref1" s Hx)
    as [Hfields Hshared].
  split.
  - destruct Hfields as (_ & Hf & Hl & _ & Ht & _); [discriminate | reflexivity |].
    split; [exact Hf | split; [exact Hl | exact Ht]].
  - destruct Hshared as (_ & Hf & Hl & _ & Ht & _); [reflexivity |].
    split; [exact Hf | split; [exact Hl | exact Ht]].
Defined.



(** A host that raises on the reload. *)
Lemma batch_never_aborts_witness :
  let w := rejecting "/lib/sub/asset.ma" "File not found." scene_A in
  let s := initial_state [] ∅ w in
  let s' := single_path_step true "/lib" s "ref1" in
  (one_failure "ref1" (reason_host_error "File not found.") s s' /\ world s' = w)
  /\ outcomes s' = 1 /\ length (relink_log s') = 1.
Proof.
  cbv zeta.
  set (w := rejecting "/lib/sub/asset.ma" "File not found." scene_A).
  set (s := initial_state [] ∅ w).
  pose proof (batch_never_aborts true true "/lib") as (Hone & Hraise & _ & _).
  assert (Hx : cmds_objExists (world s) "ref1" = true) by reflexivity.
  assert (Hrun : runs_step true "/lib" "ref1" s (single_path_step true "/lib" s "ref1"))
    by (left; split; [discriminate | reflexivity]).
  split.
  - apply (Hraise "ref1" s _ "/lib/sub/asset.ma" "File not found." w Hx Hrun);
      reflexivity.
  - apply (Hone "ref1" s _ Hx Hrun).
Defined.

(** A reference that is gone from the host. *)
Lemma missing_reference_skipped_witness :
  let s := initial_state [] ∅ scene_gone in
  nothing_recorded s (single_path_step true "/lib" s "ref1")
  /\ nothing_recorded s (per_reference_step true true s ("ref1", "tf1")).
Proof.
  cbv zeta.
  set (s := initial_state [] ∅ scene_gone).
  assert (Hx : cmds_objExists (world s) "ref1" = false) by reflexivity.
  pose proof (missing_reference_skipped true true "/lib" "tf1" "ref1" s Hx)
    as (Hs & Hp & _).
  split; assumption.
Defined.

(** A text field with two spaces in it. *)
Lemma blank_input_skipped_witness :
  let s := initial_state [] ∅ scene_blank in
  nothing_recorded s (per_reference_step true true s ("ref1", "tf1"))
  /\ per_reference_step true true s ("ref1", "tf1") = s.
Proof.
  cbv zeta.
  set (s := initial_state [] ∅ scene_blank).
  assert (Hb : PyStr.all_chars PyStr.py_isspace (cmds_textField_text (world s) "tf1")
               = true) by reflexivity.
  pose proof (blank_input_skipped true true "tf1" "ref1" s Hb) as (Hn & Hs & _).
  split; [assumption | now apply Hs].
Defined.

(** A summary of more than 1000 characters, and a short one. *)
Lemma summary_truncated_witness :
  let long := relink_references false [(long_name, "tf1")] "dirOnly" "slashConvert"
                [] ∅ scene_long in
  let short := relink_references false [("ref1", "tf1")] "dirOnly" "slashConvert"
                 [] ∅ scene_C in
  (exists shown,
     snd long = Some shown
     /\ shown = PyStr.take 1000 (summary_message (success (fst long)) (failed (fst long)))
                +:+ String "010"%char "...(message truncated)"
     /\ String.length shown = 1023)
  /\ snd short = Some (summary_message (success (fst short)) (failed (fst short))).
Proof.
  cbv zeta. split.
  - pose proof (proj1 (summary_truncated false [(long_name, "tf1")] "dirOnly"
                         "slashConvert" [] ∅ scene_long)) as Hlong.
    cbv zeta in Hlong.
    destruct Hlong as (shown & Hd & Hs & _ & _ & Hl).
    + apply Nat.ltb_lt. vm_compute. reflexivity.
    + exists shown. split; [exact Hd | split; [exact Hs | exact Hl]].
  - apply (proj1 (proj2 (summary_truncated false [("ref1", "tf1")] "dirOnly"
                           "slashConvert" [] ∅ scene_C))).
    + vm_compute. discriminate.
    + apply Nat.leb_le. vm_compute. reflexivity.
Defined.

(** * More of the program *)

(** ** Paths *)

Lemma replace_backslash_clean (path : string) :
  PyStr.all_chars (fun c => negb (Ascii.eqb c PyStr.backslash))
    (PyStr.replace_backslash path) = true.
Proof.
  induction path as [|c path IH]; simpl; [reflexivity|]. rewrite IH, andb_true_r.
  destruct (Ascii.eqb_spec c PyStr.backslash) as [->|Hc]; [reflexivity|].
  apply negb_true_iff. now apply Ascii.eqb_neq.
Qed.

Lemma replace_backslash_length (path : string) :
  String.length (PyStr.replace_backslash path) = String.length path.
Proof. induction path as [|c path IH]; simpl; [reflexivity | now rewrite IH]. Qed.

Lemma replace_backslash_id (path : string) :
  PyStr.all_chars (fun c => negb (Ascii.eqb c PyStr.backslash)) path = true ->
  PyStr.replace_backslash path = path.
Proof.
  induction path as [|c path IH]; simpl; [reflexivity|].
  intros Hp. apply andb_true_iff in Hp as [Hc Hp]. apply negb_true_iff in Hc.
  now rewrite Hc, (IH Hp).
Qed.

(** X1.  [convert_slashes] with the conversion on returns a path without
    any backslash and of the same length; with the conversion off it
    returns the path as it is. *)
Theorem convert_slashes_no_backslash (path : string) :
  PyStr.all_chars (fun c => negb (Ascii.eqb c PyStr.backslash))
    (convert_slashes path true) = true
  /\ String.length (convert_slashes path true) = String.length path
  /\ convert_slashes path false = path.
Proof.
  unfold convert_slashes. split; [apply replace_backslash_clean|].
  split; [apply replace_backslash_length | reflexivity].
Qed.

(** X2.  [convert_slashes] changes nothing in a path without a backslash,
    and converting twice is converting once. *)
Theorem convert_slashes_idempotent (path : string) (convert_to_forward : bool) :
  (PyStr.all_chars (fun c => negb (Ascii.eqb c PyStr.backslash)) path = true ->
   convert_slashes path convert_to_forward = path)
  /\ convert_slashes (convert_slashes path convert_to_forward) convert_to_forward
     = convert_slashes path convert_to_forward.
Proof.
  unfold convert_slashes. destruct convert_to_forward; [|split; reflexivity]. split.
  - apply replace_backslash_id.
  - apply replace_backslash_id, replace_backslash_clean.
Qed.

Lemma convert_slashes_idempotent_witness :
  convert_slashes "/lib/sub" true = "/lib/sub".
Proof.
  apply (proj1 (convert_slashes_idempotent "/lib/sub" true)). reflexivity.
Defined.

(** ** The search *)

Lemma str_in_In (x : string) (xs : list string) : PyStr.str_in x xs = true <-> In x xs.
Proof.
  unfold PyStr.str_in. rewrite existsb_exists. split.
  - intros (y & Hy & Heq). apply String.eqb_eq in Heq. now subst.
  - intros Hx. exists x. split; [assumption | apply String.eqb_refl].
Qed.

Lemma first_match_absent (file_name : string)
    (walk : list (string * list string * list string)) :
  (forall root dirs files, In (root, dirs, files) walk -> ~ In file_name files) ->
  first_match file_name walk = None.
Proof.
  induction walk as [|[[root dirs] files] walk IH]; simpl; intros Hno; [reflexivity|].
  destruct (PyStr.str_in file_name files) eqn:Hin.
  - apply str_in_In in Hin. destruct (Hno root dirs files (or_introl eq_refl) Hin).
  - apply IH. intros r d f Hr. apply (Hno r d f). now right.
Qed.

Lemma first_match_joined (file_name found_path : string)
    (walk : list (string * list string * list string)) :
  first_match file_name walk = Some found_path ->
  exists root, found_path = OsPath.join root file_name.
Proof.
  induction walk as [|[[root dirs] files] walk IH]; simpl; [discriminate|].
  destruct (PyStr.str_in file_name files); [|assumption].
  intros Hf. injection Hf as <-. now exists root.
Qed.

Section SearchFacts.

Context {W : Type} `{Host W}.

(** X3.  [find_file_in_directory] returns nothing exactly when no
    directory of the walk lists a file of that name. *)
Theorem find_file_none_iff (w : W) (search_dir file_name : string) :
  find_file_in_directory w search_dir file_name = None
  <-> forall root dirs files,
        In (root, dirs, files) (os_walk w search_dir) -> ~ In file_name files.
Proof.
  unfold find_file_in_directory.
  induction (os_walk w search_dir) as [|[[root dirs] files] walk IH]; simpl.
  - split; [intros _ ? ? ? [] | reflexivity].
  - destruct (PyStr.str_in file_name files) eqn:Hin.
    + split; [discriminate|]. intros Hno. apply str_in_In in Hin.
      destruct (Hno root dirs files (or_introl eq_refl) Hin).
    + rewrite IH. split.
      * intros Hno r d f [Heq|Hr]; [|now apply (Hno r d f)].
        injection Heq as <- <- <-. intros Hf. apply str_in_In in Hf. congruence.
      * intros Hno r d f Hr. apply (Hno r d f). now right.
Qed.

(** X4.  What [find_file_in_directory] returns is the file of that name in
    the first directory of the walk that lists one: the join of that
    directory and the name. *)
Theorem find_file_first_match (w : W) (search_dir file_name found_path : string) :
  find_file_in_directory w search_dir file_name = Some found_path ->
  exists before root dirs files after,
    os_walk w search_dir = before ++ (root, dirs, files) :: after
    /\ In file_name files
    /\ (forall r d f, In (r, d, f) before -> ~ In file_name f)
    /\ found_path = OsPath.join root file_name.
Proof.
  unfold find_file_in_directory.
  induction (os_walk w search_dir) as [|[[root dirs] files] walk IH]; simpl;
    [discriminate|].
  destruct (PyStr.str_in file_name files) eqn:Hin.
  - intros Hf. injection Hf as <-. exists [], root, dirs, files, walk.
    split; [reflexivity|]. split; [now apply str_in_In|]. split; [intros ? ? ? []|reflexivity].
  - intros Hf. destruct (IH Hf) as (before & r & d & f & after & -> & Hn & Hb & ->).
    exists ((root, dirs, files) :: before), r, d, f, after.
    split; [reflexivity|]. split; [assumption|]. split; [|reflexivity].
    intros r' d' f' [Heq|Hr]; [|now apply (Hb r' d' f')].
    injection Heq as <- <- <-. intros Hf'. apply str_in_In in Hf'. congruence.
Qed.

End SearchFacts.

(** ** File names *)

Lemma basename_from_plain (cand b : string) :
  PyStr.all_chars (fun c => negb (Ascii.eqb c PyStr.slash)) b = true ->
  OsPath.basename_from cand b = cand.
Proof.
  revert cand. induction b as [|c b IH]; simpl; intros cand Hb; [reflexivity|].
  apply andb_true_iff in Hb as [Hc Hb]. apply negb_true_iff in Hc. rewrite Hc.
  now apply IH.
Qed.

Lemma basename_from_app (a b cand : string) :
  PyStr.all_chars (fun c => negb (Ascii.eqb c PyStr.slash)) b = true ->
  OsPath.basename_from cand (a +:+ "/" +:+ b) = b.
Proof.
  intros Hb. revert cand. induction a as [|c a IH]; intros cand.
  - change (OsPath.basename_from b b = b). now apply basename_from_plain.
  - change (OsPath.basename_from cand (String c (a +:+ "/" +:+ b)) = b). simpl.
    destruct (Ascii.eqb c PyStr.slash); apply IH.
Qed.

Lemma basename_from_suffix (s pre : string) :
  PyStr.all_chars (fun c => negb (Ascii.eqb c PyStr.slash)) pre = true ->
  PyStr.all_chars (fun c => negb (Ascii.eqb c PyStr.slash))
    (OsPath.basename_from (pre +:+ s) s) = true.
Proof.
  revert pre. induction s as [|c s IH]; intros pre Hp; simpl.
  - now rewrite append_nil_r.
  - destruct (Ascii.eqb c PyStr.slash) eqn:Hc.
    + apply (IH "" eq_refl).
    + replace (pre +:+ String c s) with ((pre +:+ String c "") +:+ s)
        by (now rewrite append_assoc).
      apply IH. rewrite CopySuffixFacts.all_chars_app, Hp. simpl. now rewrite Hc.
Qed.

Lemma ends_with_slash_app (a : string) :
  OsPath.ends_with_slash a = true -> exists a0, a = a0 +:+ "/".
Proof.
  induction a as [|c a IH]; simpl; [discriminate|].
  destruct a as [|d a].
  - intros Hc. apply Ascii.eqb_eq in Hc as ->. now exists "".
  - intros Ha. destruct (IH Ha) as [a0 Ha0]. exists (String c a0).
    simpl. now rewrite <- Ha0.
Qed.

(** [os.path.basename] never returns a slash, and it undoes
    [os.path.join] for a name without a slash. *)
Lemma basename_join (root name : string) :
  PyStr.all_chars (fun c => negb (Ascii.eqb c PyStr.slash)) (OsPath.basename root) = true
  /\ (PyStr.all_chars (fun c => negb (Ascii.eqb c PyStr.slash)) name = true ->
      OsPath.basename (OsPath.join root name) = name).
Proof.
  split; [apply (basename_from_suffix root "" eq_refl)|].
  intros Hn. unfold OsPath.basename.
  assert (Hsl : forall a, OsPath.basename_from (a +:+ "/" +:+ name) (a +:+ "/" +:+ name)
                          = name) by (intros a; now apply basename_from_app).
  assert (Hend : forall a, OsPath.ends_with_slash a = true ->
                           OsPath.basename_from (a +:+ name) (a +:+ name) = name).
  { intros a Ha. destruct (ends_with_slash_app a Ha) as [a0 ->].
    rewrite append_assoc. apply Hsl. }
  assert (Hempty : forall a, PyStr.truthy a = false ->
                             OsPath.basename_from (a +:+ name) (a +:+ name) = name).
  { intros a Ha. apply truthy_false in Ha as ->. now apply basename_from_plain. }
  unfold OsPath.join. destruct name as [|c name].
  - destruct (PyStr.truthy root) eqn:Ht; cbn [negb orb].
    + destruct (OsPath.ends_with_slash root) eqn:He.
      * specialize (Hend _ He). now rewrite append_nil_r in Hend.
      * exact (Hsl root).
    + specialize (Hempty _ Ht). now rewrite append_nil_r in Hempty.
  - simpl in Hn. apply andb_true_iff in Hn as [Hc Hn'].
    apply negb_true_iff in Hc. rewrite Hc.
    destruct (PyStr.truthy root) eqn:Ht; cbn [negb orb].
    + destruct (OsPath.ends_with_slash root) eqn:He.
      * now apply Hend.
      * exact (Hsl root).
    + now apply Hempty.
Qed.

Lemma clean_file_name_is_prefix (file_name_raw : string) :
  exists rest, file_name_raw = CopySuffix.clean_file_name file_name_raw +:+ rest.
Proof.
  unfold CopySuffix.clean_file_name.
  destruct (CopySuffix.pattern_match file_name_raw) as [[g1 g2]|] eqn:Hm.
  - destruct (CopySuffixFacts.pattern_match_sound _ _ _ Hm)
      as (ds & tail & (_ & _ & _ & ->) & _). eexists; reflexivity.
  - exists "". now rewrite append_nil_r.
Qed.

(** X5.  The clean name is the start of the raw file name, it is no
    longer than it, and a raw file name that is not empty never has an empty
    clean name. *)
Theorem clean_file_name_prefix (file_name_raw : string) :
  (exists rest, file_name_raw = CopySuffix.clean_file_name file_name_raw +:+ rest)
  /\ String.length (CopySuffix.clean_file_name file_name_raw)
     <= String.length file_name_raw
  /\ (file_name_raw <> "" -> CopySuffix.clean_file_name file_name_raw <> "").
Proof.
  unfold CopySuffix.clean_file_name.
  destruct (CopySuffix.pattern_match file_name_raw) as [[g1 g2]|] eqn:Hm.
  - destruct (CopySuffixFacts.pattern_match_sound _ _ _ Hm)
      as (ds & tail & ([Hne Hb] & _ & _ & ->) & _).
    split; [eexists; reflexivity|]. split; [rewrite append_length; lia | auto].
  - split; [exists ""; now rewrite append_nil_r|]. split; [lia | auto].
Qed.

Lemma clean_file_name_prefix_witness : CopySuffix.clean_file_name "{3}" <> "".
Proof. apply (proj2 (proj2 (clean_file_name_prefix "{3}"))). discriminate. Defined.

Section NameFacts.

Context {W : Type} `{Host W}.

Lemma clean_name_plain (w : W) (ref : string) :
  PyStr.all_chars (fun c => negb (Ascii.eqb c PyStr.slash)) (clean_name_of w ref) = true.
Proof.
  unfold clean_name_of.
  set (raw := OsPath.basename (cmds_referenceQuery_unresolvedName w ref)).
  pose proof (proj1 (basename_join (cmds_referenceQuery_unresolvedName w ref) "")) as Hb.
  fold raw in Hb. destruct (clean_file_name_is_prefix raw) as [rest Hr].
  rewrite Hr, CopySuffixFacts.all_chars_app in Hb.
  now apply andb_true_iff in Hb as [Hb _].
Qed.

(** X6.  With a directory given, the name searched for holds no slash, and
    the candidate that the search finds has exactly that name as its base
    name. *)
Theorem candidate_has_clean_name (w : W) (search_dir ref : string) :
  PyStr.all_chars (fun c => negb (Ascii.eqb c PyStr.slash)) (clean_name_of w ref) = true
  /\ forall p, candidate_of true search_dir ref w = Some p ->
               OsPath.basename p = clean_name_of w ref.
Proof.
  split; [apply clean_name_plain|]. intros p Hc. unfold candidate_of in Hc.
  destruct (find_file_in_directory w search_dir (clean_name_of w ref)) as [q|] eqn:Hf;
    [|discriminate].
  destruct (PyStr.truthy q); [|discriminate]. injection Hc as <-.
  destruct (first_match_joined _ _ _ Hf) as [root ->].
  apply basename_join, clean_name_plain.
Qed.

End NameFacts.

(** ** A whole batch *)

Section GrowthFacts.

Context {W : Type} `{Host W}.

Implicit Types (s : RelinkState W) (ref : string).

Lemma reloads_app (a b : list HostCall) : reloads (a ++ b) = reloads a ++ reloads b.
Proof. unfold reloads. apply List.filter_app. Qed.

Ltac set_tauto :=
  apply set_eq; intros ?; simpl;
  rewrite ?list_to_set_app_L, ?elem_of_union, ?elem_of_empty, ?elem_of_singleton;
  tauto.

Lemma grows_refl (d : bool) (refs : list string) s : grows d refs 0 s s.
Proof.
  exists [], [], [], [].
  split_and!; simpl; rewrite ?app_nil_r; try reflexivity; try lia;
    try set_tauto; try (intros ? []).
Qed.

Lemma grows_trans (d : bool) (refs : list string) (n m : nat) s s1 s2 :
  grows d refs n s s1 -> grows d refs m s1 s2 -> grows d refs (n + m) s s2.
Proof.
  intros (ns & nf & nl & calls & Hs & Hf & Hl & Ht & Hln & Hn & Hr & Hins & Hinf
          & Hrl & Hw & Hd)
         (ns' & nf' & nl' & calls' & Hs' & Hf' & Hl' & Ht' & Hln' & Hn' & Hr' & Hins'
          & Hinf' & Hrl' & Hw' & Hd').
  exists (ns ++ ns'), (nf ++ nf'), (nl ++ nl'), (calls ++ calls').
  split_and!.
  - now rewrite Hs', Hs, <- app_assoc.
  - now rewrite Hf', Hf, <- app_assoc.
  - now rewrite Hl', Hl, <- app_assoc.
  - now rewrite Ht', Ht, <- app_assoc.
  - rewrite !length_app. lia.
  - rewrite !length_app. lia.
  - rewrite Hr', Hr. set_tauto.
  - intros r Hin. apply in_app_iff in Hin as [Hin|Hin].
    + destruct (Hins r Hin) as [Hrefs [p Hp]]. split; [assumption|].
      exists p. apply in_app_iff. now left.
    + destruct (Hins' r Hin) as [Hrefs [p Hp]]. split; [assumption|].
      exists p. apply in_app_iff. now right.
  - intros e Hin. apply in_app_iff in Hin as [Hin|Hin]; auto.
  - rewrite reloads_app, !length_app. lia.
  - rewrite reloads_app. intros Hnil. apply app_eq_nil in Hnil as [Ha Hb].
    now rewrite (Hw' Hb), (Hw Ha).
  - intros Hdf. now rewrite reloads_app, (Hd Hdf), (Hd' Hdf).
Qed.

Lemma grows_more (d : bool) (refs : list string) (n m : nat) s s' :
  n <= m -> grows d refs n s s' -> grows d refs m s s'.
Proof.
  intros Hnm (ns & nf & nl & calls & Hs & Hf & Hl & Ht & Hln & Hn & Hrest).
  exists ns, nf, nl, calls. repeat (split; [assumption|]). split; [lia | assumption].
Qed.

(** A failure recorded on a state that differs from [s] by calls that are
    no reloads. *)
Lemma record_failure_grows (d : bool) (refs : list string) ref reason s s0
    (pre : list HostCall) :
  In ref refs ->
  success s0 = success s -> failed s0 = failed s -> relink_log s0 = relink_log s ->
  relinked_refs s0 = relinked_refs s -> world s0 = world s ->
  trace s0 = trace s ++ pre -> reloads pre = [] -> (d = false -> pre = []) ->
  grows d refs 1 s (record_failure ref reason s0).
Proof.
  intros Hin Hs Hf Hl Hr Hw Ht Hpre Hd.
  exists [], [ref +:+ ": " +:+ reason],
    ["Failed to relink " +:+ ref +:+ ": " +:+ reason], pre.
  split_and!; simpl.
  - now rewrite Hs, app_nil_r.
  - now rewrite Hf.
  - now rewrite Hl.
  - assumption.
  - reflexivity.
  - lia.
  - rewrite Hr. set_tauto.
  - intros r [].
  - intros e [<-|[]]. now exists ref, reason.
  - rewrite Hpre. simpl. lia.
  - intros _. assumption.
  - intros Hdf. now rewrite (Hd Hdf).
Qed.

Lemma attempt_reload_grows (d : bool) (refs : list string) ref p s s0
    (pre : list HostCall) :
  In ref refs ->
  success s0 = success s -> failed s0 = failed s -> relink_log s0 = relink_log s ->
  relinked_refs s0 = relinked_refs s -> world s0 = world s ->
  trace s0 = trace s ++ pre -> reloads pre = [] -> (d = false -> pre = []) ->
  grows d refs 1 s (attempt_reload ref p s0).
Proof.
  intros Hin Hs Hf Hl Hr Hw Ht Hpre Hd. unfold attempt_reload.
  destruct (PyStr.truthy p && os_path_exists (world s0) p);
    [|now apply record_failure_grows with (pre := pre)].
  assert (Hcalls : reloads (pre ++ [CallReload p ref]) = [CallReload p ref])
    by (now rewrite reloads_app, Hpre).
  assert (Hdf : d = false -> reloads (pre ++ [CallReload p ref]) = pre ++ [CallReload p ref])
    by (intros Hdf; now rewrite Hcalls, (Hd Hdf)).
  assert (Htr : forall t, t = trace s0 ++ [CallReload p ref] ->
                          t = trace s ++ pre ++ [CallReload p ref])
    by (intros t ->; now rewrite Ht, <- app_assoc).
  destruct (cmds_file_loadReference (world s0) p ref) as [w'|e w'].
  - destruct (cmds_referenceQuery_isLoaded w' ref).
    + exists [ref], [],
        ["Successfully relinked " +:+ ref +:+ " to " +:+ cmds_referenceQuery_filename w' ref],
        (pre ++ [CallReload p ref]).
      split_and!; simpl.
      * now rewrite Hs.
      * now rewrite Hf, app_nil_r.
      * now rewrite Hl.
      * now apply Htr.
      * reflexivity.
      * lia.
      * rewrite Hr. set_tauto.
      * intros r [<-|[]]. split; [assumption|]. exists p. apply in_app_iff. right. now left.
      * intros e [].
      * rewrite Hcalls. simpl. lia.
      * rewrite Hcalls. discriminate.
      * assumption.
    + exists [], [ref +:+ ": " +:+ reason_verification false (cmds_referenceQuery_filename w' ref)],
        ["Failed to relink " +:+ ref +:+ ": "
         +:+ reason_verification false (cmds_referenceQuery_filename w' ref)],
        (pre ++ [CallReload p ref]).
      split_and!; simpl.
      * now rewrite Hs, app_nil_r.
      * now rewrite Hf.
      * now rewrite Hl.
      * now apply Htr.
      * reflexivity.
      * lia.
      * rewrite Hr. set_tauto.
      * intros r [].
      * intros e [<-|[]]. now eexists ref, _.
      * rewrite Hcalls. simpl. lia.
      * rewrite Hcalls. discriminate.
      * assumption.
  - exists [], [ref +:+ ": " +:+ reason_host_error e],
      ["Failed to relink " +:+ ref +:+ ": " +:+ reason_host_error e],
      (pre ++ [CallReload p ref]).
    split_and!; simpl.
    + now rewrite Hs, app_nil_r.
    + now rewrite Hf.
    + now rewrite Hl.
    + now apply Htr.
    + reflexivity.
    + lia.
    + rewrite Hr. set_tauto.
    + intros r [].
    + intros e0 [<-|[]]. now eexists ref, _.
    + rewrite Hcalls. simpl. lia.
    + rewrite Hcalls. discriminate.
    + assumption.
Qed.

Lemma search_and_reload_grows (refs : list string) ref search_dir s :
  In ref refs -> grows true refs 1 s (search_and_reload ref search_dir s).
Proof.
  intros Hin. unfold search_and_reload.
  destruct (find_file_in_directory _ _ _) as [q|];
    [destruct (PyStr.truthy q)|];
    [apply attempt_reload_grows with (pre := [CallWalk search_dir])
    |apply record_failure_grows with (pre := [CallWalk search_dir])
    |apply record_failure_grows with (pre := [CallWalk search_dir])];
    try reflexivity; try assumption; discriminate.
Qed.

Lemma skip_missing_grows (d : bool) (refs : list string) ref s :
  grows d refs 1 s (skip_missing ref s).
Proof.
  apply grows_more with (n := 0); [lia|].
  exists [], [], [], [].
  split_and!; simpl; rewrite ?app_nil_r; try reflexivity; try lia;
    try set_tauto; try (intros ? []).
Qed.

(** One turn of either loop. *)
Lemma turn_grows (d c : bool) (u : string) (refs : list string)
    (item : string * string) s s' :
  In (fst item) refs -> turn d c u item s s' -> grows d refs 1 s s'.
Proof.
  intros Hin [-> | ->].
  - unfold single_path_step.
    destruct (cmds_objExists (world s) (fst item)); simpl; [|apply skip_missing_grows].
    destruct d; [now apply search_and_reload_grows|].
    apply attempt_reload_grows with (pre := []); try reflexivity; try assumption.
    now rewrite app_nil_r.
  - destruct item as [ref tf]. simpl in Hin. unfold per_reference_step.
    destruct (cmds_objExists (world s) ref); simpl; [|apply skip_missing_grows].
    destruct (PyStr.truthy _); simpl;
      [|apply grows_more with (n := 0); [lia | apply grows_refl]].
    destruct d.
    + destruct (os_path_isdir _ _); simpl; [now apply search_and_reload_grows|].
      apply record_failure_grows with (pre := []); try reflexivity; try assumption.
      now rewrite app_nil_r.
    + apply attempt_reload_grows with (pre := []); try reflexivity; try assumption.
      now rewrite app_nil_r.
Qed.

Lemma single_path_loop_grows (d : bool) (u : string) (refs all : list string) s :
  (forall r, In r refs -> In r all) ->
  grows d all (length refs) s (fold_left (single_path_step d u) refs s).
Proof.
  revert s. induction refs as [|ref refs IH]; intros s Hall; [apply grows_refl|].
  simpl fold_left. change (length (ref :: refs)) with (1 + length refs).
  apply grows_trans with (s1 := single_path_step d u s ref).
  - apply (turn_grows d true u all (ref, "")); [apply Hall; now left | now left].
  - apply IH. intros r Hr. apply Hall. now right.
Qed.

Lemma per_reference_loop_grows (d c : bool) (items : list (string * string))
    (all : list string) s :
  (forall r, In r (map fst items) -> In r all) ->
  grows d all (length (map fst items)) s (fold_left (per_reference_step d c) items s).
Proof.
  revert s. induction items as [|item items IH]; intros s Hall; [apply grows_refl|].
  simpl fold_left. change (length (map fst (item :: items)))
    with (1 + length (map fst items)).
  apply grows_trans with (s1 := per_reference_step d c s item).
  - apply (turn_grows d c "" all item); [apply Hall; now left | now right].
  - apply IH. intros r Hr. apply Hall. now right.
Qed.

(** The batch of [relink_references], from its initial state. *)
Lemma batch_grows (use_single_path : bool) (mapping_dict : list (string * string))
    (dir_only_checkbox slash_convert_checkbox : string)
    (log : list string) (relinked : gset string) (w : W) :
  grows (cmds_checkBox_value w dir_only_checkbox)
    (batch_refs use_single_path mapping_dict w)
    (length (batch_refs use_single_path mapping_dict w))
    (initial_state log relinked w)
    (fst (relink_references use_single_path mapping_dict dir_only_checkbox
            slash_convert_checkbox log relinked w)).
Proof.
  unfold relink_references, run_batch, batch_refs. cbn [fst].
  destruct use_single_path.
  - cbn [world initial_state].
    destruct (cmds_textField_exists w "singlePathField");
      [|apply grows_more with (n := 0); [lia | apply grows_refl]].
    destruct (PyStr.truthy _);
      [|apply grows_more with (n := 0); [lia | apply grows_refl]].
    now apply single_path_loop_grows.
  - now apply per_reference_loop_grows.
Qed.

End GrowthFacts.

Section BatchProperties.

Context {W : Type} `{Host W}.

Variables (use_single_path : bool) (mapping_dict : list (string * string))
  (dir_only_checkbox slash_convert_checkbox : string)
  (log : list string) (relinked : gset string) (w : W).

Let final : RelinkState W :=
  fst (relink_references use_single_path mapping_dict dir_only_checkbox
         slash_convert_checkbox log relinked w).

(** X8.  The log only grows: after a batch it is the log before it
    followed by one line for each outcome of the batch. *)
Theorem batch_log_append_only :
  exists lines,
    relink_log final = log ++ lines
    /\ length lines = length (success final) + length (failed final).
Proof.
  destruct (batch_grows use_single_path mapping_dict dir_only_checkbox
              slash_convert_checkbox log relinked w)
    as (ns & nf & nl & calls & Hs & Hf & Hl & _ & Hln & _).
  fold final in Hs, Hf, Hl. simpl in Hs, Hf, Hl. exists nl.
  now rewrite Hs, Hf, Hl.
Qed.

(** X9.  The relinked set after a batch is the set before it with the
    references the batch relinked: nothing leaves it, and a reference
    enters it exactly by a success. *)
Theorem batch_relinked_set :
  relinked_refs final = list_to_set (success final) ∪ relinked
  /\ relinked ⊆ relinked_refs final.
Proof.
  destruct (batch_grows use_single_path mapping_dict dir_only_checkbox
              slash_convert_checkbox log relinked w)
    as (ns & nf & nl & calls & Hs & _ & _ & _ & _ & _ & Hr & _).
  fold final in Hs, Hr. simpl in Hs, Hr. rewrite Hs, Hr.
  split; [reflexivity | apply union_subseteq_r].
Qed.

(** X10.  A batch records outcomes only for the references it goes
    through, the broken references or the keys of the mapping, and at most
    one for each: every success is one of them, every failure line starts
    with one of them, and there are no more outcomes than references. *)
Theorem batch_outcomes_bounded :
  (forall ref, In ref (success final) ->
               In ref (batch_refs use_single_path mapping_dict w))
  /\ (forall line, In line (failed final) ->
        exists ref reason,
          In ref (batch_refs use_single_path mapping_dict w)
          /\ line = ref +:+ ": " +:+ reason)
  /\ length (success final) + length (failed final)
     <= length (batch_refs use_single_path mapping_dict w).
Proof.
  destruct (batch_grows use_single_path mapping_dict dir_only_checkbox
              slash_convert_checkbox log relinked w)
    as (ns & nf & nl & calls & Hs & Hf & _ & _ & _ & Hn & _ & Hins & Hinf & _).
  fold final in Hs, Hf. simpl in Hs, Hf. rewrite Hs, Hf.
  split; [intros ref Hin; now apply Hins|]. split; assumption.
Qed.

(** X11.  With the directory-only box off, a batch walks no directory: the
    only calls it issues are reloads, at most one for each outcome. *)
Theorem batch_exact_file_no_walk :
  cmds_checkBox_value w dir_only_checkbox = false ->
  (forall call, In call (trace final) -> is_reload call = true)
  /\ length (trace final) <= length (success final) + length (failed final).
Proof.
  intros Hd.
  destruct (batch_grows use_single_path mapping_dict dir_only_checkbox
              slash_convert_checkbox log relinked w)
    as (ns & nf & nl & calls & Hs & Hf & _ & Ht & _ & _ & _ & _ & _ & Hrl & _ & Hdf).
  fold final in Hs, Hf, Ht. simpl in Hs, Hf, Ht. rewrite Hs, Hf, Ht.
  specialize (Hdf Hd). rewrite Hdf in Hrl. split; [|assumption].
  intros call Hin. rewrite <- Hdf in Hin. unfold reloads in Hin.
  now apply filter_In in Hin as [_ Hin].
Qed.

(** X12.  Every reference in [success] was reloaded: the trace of the
    batch holds a reload call for it. *)
Theorem batch_success_reloaded (ref : string) :
  In ref (success final) -> exists new_path, In (CallReload new_path ref) (trace final).
Proof.
  destruct (batch_grows use_single_path mapping_dict dir_only_checkbox
              slash_convert_checkbox log relinked w)
    as (ns & nf & nl & calls & Hs & _ & _ & Ht & _ & _ & _ & Hins & _).
  fold final in Hs, Ht. simpl in Hs, Ht. rewrite Hs, Ht. intros Hin.
  destruct (Hins ref Hin) as [_ [p Hp]]. now exists p.
Qed.

(** X13.  The batch changes the host only through reloads: when it issued
    none, the host is in the state the batch found it in. *)
Theorem batch_host_untouched :
  reloads (trace final) = [] -> world final = w.
Proof.
  destruct (batch_grows use_single_path mapping_dict dir_only_checkbox
              slash_convert_checkbox log relinked w)
    as (ns & nf & nl & calls & _ & _ & _ & Ht & _ & _ & _ & _ & _ & _ & Hw & _).
  fold final in Ht, Hw. simpl in Ht, Hw. now rewrite Ht.
Qed.

(** X14.  The dialog, when one is shown, is never empty and never longer
    than 1000 characters and the truncation marker, 1023 in all. *)
Theorem dialog_bounded (text : string) :
  snd (relink_references use_single_path mapping_dict dir_only_checkbox
         slash_convert_checkbox log relinked w) = Some text ->
  text <> "" /\ String.length text <= 1023.
Proof.
  unfold relink_references. cbn [snd]. unfold confirm_dialog, truncate_message.
  set (m := summary_message _ _).
  destruct (PyStr.truthy m) eqn:Hm; [|discriminate].
  destruct (max_len <? String.length m)%nat eqn:Hl; intros Ht; injection Ht as <-.
  - apply Nat.ltb_lt in Hl. split.
    + intros He. apply (f_equal String.length) in He.
      rewrite append_length, take_length in He by lia. unfold max_len in He.
      simpl in He. lia.
    + rewrite append_length, take_length by lia. reflexivity.
  - apply Nat.ltb_ge in Hl. split; [now apply truthy_true|].
    unfold max_len in Hl. lia.
Qed.

(** X15.  On the shared path, a batch does nothing at all when the field
    of the shared path does not exist or holds only whitespace: no outcome,
    no log line, no call, and no dialog. *)
Theorem shared_path_blank :
  cmds_textField_exists w "singlePathField" = false
  \/ PyStr.all_chars PyStr.py_isspace (cmds_textField_text w "singlePathField") = true ->
  relink_references true mapping_dict dir_only_checkbox slash_convert_checkbox
    log relinked w = (initial_state log relinked w, None).
Proof.
  intros Hb. unfold relink_references, run_batch. cbn [world initial_state].
  destruct (cmds_textField_exists w "singlePathField"); [|reflexivity].
  destruct Hb as [Hb|Hb]; [discriminate|]. now rewrite (strip_blank _ Hb).
Qed.

End BatchProperties.

(** ** The window and the popup *)

Lemma filter_absorb {A : Type} (f g : A -> bool) (l : list A) :
  (forall x, f x = true -> g x = true) ->
  List.filter f (List.filter g l) = List.filter f l.
Proof.
  intros Hfg. induction l as [|x l IH]; simpl; [reflexivity|].
  destruct (g x) eqn:Hg; simpl.
  - now rewrite IH.
  - destruct (f x) eqn:Hf; [|assumption]. rewrite (Hfg x Hf) in Hg. discriminate.
Qed.

Lemma dict_get_set {A : Type} (k k' : string) (v : A) (d : list (string * A)) :
  PyDict.get k' (PyDict.set k v d) = if String.eqb k' k then Some v else PyDict.get k' d.
Proof.
  induction d as [|[k0 v0] d IH]; simpl.
  - reflexivity.
  - destruct (String.eqb_spec k k0) as [->|Hk]; simpl.
    + now destruct (String.eqb k' k0).
    + rewrite IH. destruct (String.eqb_spec k' k0) as [->|Hk'].
      * apply String.eqb_neq in Hk. rewrite String.eqb_sym in Hk. now rewrite Hk.
      * reflexivity.
Qed.

Lemma dict_keys_set {A : Type} (k : string) (v : A) (d : list (string * A)) :
  PyDict.keys (PyDict.set k v d) =
  if PyStr.str_in k (PyDict.keys d) then PyDict.keys d else PyDict.keys d ++ [k].
Proof.
  unfold PyDict.keys, PyStr.str_in. induction d as [|[k0 v0] d IH]; simpl; [reflexivity|].
  destruct (String.eqb_spec k k0) as [->|Hk]; simpl; [reflexivity|]. rewrite IH.
  now destruct (existsb (String.eqb k) (map fst d)).
Qed.

Lemma dict_set_nodup {A : Type} (k : string) (v : A) (d : list (string * A)) :
  List.NoDup (PyDict.keys d) -> List.NoDup (PyDict.keys (PyDict.set k v d)).
Proof.
  intros Hd. rewrite dict_keys_set.
  destruct (PyStr.str_in k (PyDict.keys d)) eqn:Hin; [assumption|].
  assert (Hr : List.NoDup (rev (PyDict.keys d ++ [k]))).
  { rewrite rev_app_distr. simpl. constructor.
    - rewrite <- in_rev. intros Hk. apply str_in_In in Hk. congruence.
    - now apply List.NoDup_rev. }
  apply List.NoDup_rev in Hr. now rewrite rev_involutive in Hr.
Qed.

Lemma comprehension_fold {A : Type} (f : string -> A) (ks : list string)
    (d : list (string * A)) (k : string) :
  PyDict.get k (fold_left (fun d k => PyDict.set k (f k) d) ks d) =
  if PyStr.str_in k ks then Some (f k) else PyDict.get k d.
Proof.
  revert d. induction ks as [|k0 ks IH]; intros d; simpl; [reflexivity|].
  rewrite IH, dict_get_set. destruct (PyStr.str_in k ks) eqn:Hin.
  - now rewrite orb_true_r.
  - rewrite orb_false_r. destruct (String.eqb_spec k k0) as [->|]; reflexivity.
Qed.

Lemma comprehension_nodup {A : Type} (f : string -> A) (ks : list string)
    (d : list (string * A)) :
  List.NoDup (PyDict.keys d) ->
  List.NoDup (PyDict.keys (fold_left (fun d k => PyDict.set k (f k) d) ks d)).
Proof.
  revert d. induction ks as [|k0 ks IH]; intros d Hd; simpl; [assumption|].
  apply IH. now apply dict_set_nodup.
Qed.

Lemma fold_left_text {A : Type} (e : A -> string) (l : list A) (acc : string) :
  fold_left (fun text item => text +:+ e item) l acc =
  acc +:+ fold_left (fun text item => text +:+ e item) l "".
Proof.
  revert acc. induction l as [|x l IH]; intros acc; simpl.
  - now rewrite append_nil_r.
  - rewrite (IH (acc +:+ e x)), (IH (e x)). now rewrite append_assoc.
Qed.

Lemma dict_get_split {A : Type} (k : string) (v : A) (d : list (string * A)) :
  PyDict.get k d = Some v -> exists front back, d = front ++ (k, v) :: back.
Proof.
  induction d as [|[k0 v0] d IH]; simpl; [discriminate|].
  destruct (String.eqb_spec k k0) as [->|Hk].
  - intros Hv. injection Hv as ->. now exists [], d.
  - intros Hv. destruct (IH Hv) as (front & back & ->).
    now exists ((k0, v0) :: front), back.
Qed.

Section WindowFacts.

Context {W : Type} `{Host W}.

(** X7.  With a directory given that the walk lists no file of the clean
    name in, the turn walks the directory, reloads nothing, and records one
    failure with the text [Could not find], the clean name and the
    directory, in [failed] and in the log; [success] and the relinked set
    are left as they were. *)
Theorem search_finds_nothing (user_path ref : string) (s s' : RelinkState W) :
  cmds_objExists (world s) ref = true ->
  runs_step true user_path ref s s' ->
  os_path_isdir (world s) user_path = true ->
  (forall root dirs files,
      In (root, dirs, files) (os_walk (world s) user_path) ->
      ~ In (clean_name_of (world s) ref) files) ->
  success s' = success s
  /\ failed s' =
     failed s ++ [ref +:+ ": " +:+ "Could not find '" +:+ clean_name_of (world s) ref
                  +:+ "' in " +:+ user_path +:+ " (and subdirs)"]
  /\ relink_log s' =
     relink_log s ++ ["Failed to relink " +:+ ref +:+ ": " +:+ "Could not find '"
                      +:+ clean_name_of (world s) ref +:+ "' in " +:+ user_path
                      +:+ " (and subdirs)"]
  /\ relinked_refs s' = relinked_refs s
  /\ trace s' = trace s ++ [CallWalk user_path]
  /\ world s' = world s.
Proof.
  intros Hx Hr Hd Hno. apply first_match_absent in Hno.
  assert (Hs : search_and_reload ref user_path s =
               record_failure ref (reason_not_found (clean_name_of (world s) ref) user_path)
                 (log_call (CallWalk user_path) s))
    by (unfold search_and_reload, find_file_in_directory; now rewrite Hno).
  assert (Hs' : s' = search_and_reload ref user_path s).
  { destruct Hr as [[_ ->]|(convert & tf & Hne & Hu & ->)].
    - unfold single_path_step. now rewrite Hx.
    - unfold per_reference_step. rewrite Hx. simpl.
      apply truthy_true in Hne. rewrite Hne. simpl.
      unfold user_input_of in Hu. rewrite Hu, Hd. reflexivity. }
  rewrite Hs', Hs. repeat split.
Qed.

(** X16.  The references that get a text field are the same whether all
    references are shown or not: none when the shared path is used, and
    otherwise the reference nodes that are not the shared one and are not
    loaded. *)
Theorem mapping_refs_spec (show_all use_single_path : bool) (w : W) :
  mapping_refs show_all use_single_path w = mapping_refs false use_single_path w
  /\ forall ref,
       In ref (mapping_refs show_all use_single_path w)
       <-> use_single_path = false
           /\ In ref (cmds_ls_reference w)
           /\ PyStr.contains "sharedReferenceNode" ref = false
           /\ cmds_referenceQuery_isLoaded w ref = false.
Proof.
  assert (Hsame : forall b, mapping_refs b use_single_path w =
            List.filter (fun ref => negb (cmds_referenceQuery_isLoaded w ref)
                                    && negb use_single_path) (all_refs w)).
  { intros [|]; unfold mapping_refs; [reflexivity|]. apply filter_absorb.
    intros x Hx. now apply andb_true_iff in Hx as [Hx _]. }
  split; [now rewrite !Hsame|].
  intros ref. rewrite Hsame. unfold all_refs. rewrite !filter_In, andb_true_iff,
    !negb_true_iff. tauto.
Qed.

(** X17.  [original_paths] has one entry for each reference node that is
    not the shared one, it maps the reference to the file name the host
    reported when the window was opened, and it has no entry for anything
    else. *)
Theorem original_paths_lookup (w : W) (ref : string) :
  PyDict.get ref (original_paths_of w) =
    (if PyStr.str_in ref (all_refs w) then Some (cmds_referenceQuery_filename w ref)
     else None)
  /\ List.NoDup (PyDict.keys (original_paths_of w))
  /\ (forall key, In key (PyDict.keys (original_paths_of w)) ->
        PyStr.contains "sharedReferenceNode" key = false).
Proof.
  unfold original_paths_of, PyDict.comprehension.
  split; [exact (comprehension_fold (cmds_referenceQuery_filename w) (all_refs w) [] ref)|].
  split; [apply comprehension_nodup; constructor|].
  intros key Hk.
  assert (Hget : PyDict.get key (fold_left
            (fun d k => PyDict.set k (cmds_referenceQuery_filename w k) d)
            (all_refs w) []) <> None).
  { revert Hk. generalize (fold_left
      (fun d k => PyDict.set k (cmds_referenceQuery_filename w k) d) (all_refs w) []).
    intros d. unfold PyDict.keys. induction d as [|[k0 v0] d IH]; simpl; [intros []|].
    intros [->|Hk]; [now rewrite String.eqb_refl|].
    destruct (String.eqb key k0); [discriminate | now apply IH]. }
  rewrite comprehension_fold in Hget.
  destruct (PyStr.str_in key (all_refs w)) eqn:Hin; [|now destruct Hget].
  apply str_in_In in Hin. unfold all_refs in Hin.
  apply filter_In in Hin as [_ Hin]. now apply negb_true_iff in Hin.
Qed.

(** X18.  The text of the popup is made entry by entry, in the order of
    [original_paths]; and when none of the references was relinked it is the
    old paths, each followed by an empty line. *)
Theorem path_text_old_paths (w : W) (relinked : gset string)
    (front back : list (string * string)) :
  path_text w relinked (front ++ back)
  = path_text w relinked front +:+ path_text w relinked back
  /\ ((forall item, In item front -> fst item ∉ relinked) ->
      path_text w relinked front =
      String.concat "" (map (fun item => snd item +:+ PyStr.nl +:+ PyStr.nl) front)).
Proof.
  unfold path_text. split.
  - rewrite fold_left_app. apply fold_left_text.
  - induction front as [|[ref old] front IH]; intros Hno; [reflexivity|].
    cbn [fold_left map fst snd]. rewrite fold_left_text, IH
      by (intros item Hin; apply Hno; now right).
    unfold path_entry. rewrite bool_decide_eq_false_2
      by (apply (Hno (ref, old)); now left).
    destruct front as [|item front]; [now rewrite append_nil_r|].
    cbn [map String.concat]. now rewrite !append_assoc.
Qed.

(** X19.  A reference that was in the scene when the window was opened
    has its entry in [original_paths], with the file name it had then; if a
    batch relinks it, the text of the popup holds, at the place of that
    entry, that old path and then the current path of the reference, or the
    words [Reference removed] when the host no longer has it.  A reference
    that was not in the scene then has no entry, and the popup does not show
    it. *)
Theorem relinked_shown_with_both_paths (use_single_path : bool)
    (mapping_dict : list (string * string))
    (dir_only_checkbox slash_convert_checkbox : string)
    (log : list string) (relinked : gset string) (w_open w w_now : W) (ref : string) :
  let final := fst (relink_references use_single_path mapping_dict dir_only_checkbox
                      slash_convert_checkbox log relinked w) in
  (In ref (all_refs w_open) ->
   In ref (success final) ->
   exists front back,
     original_paths_of w_open =
       front ++ (ref, cmds_referenceQuery_filename w_open ref) :: back
     /\ path_text w_now (relinked_refs final) (original_paths_of w_open) =
        path_text w_now (relinked_refs final) front
        +:+ (cmds_referenceQuery_filename w_open ref +:+ String "010"%char ""
             +:+ (if cmds_objExists w_now ref then cmds_referenceQuery_filename w_now ref
                  else "Reference removed")
             +:+ String "010"%char (String "010"%char ""))
        +:+ path_text w_now (relinked_refs final) back)
  /\ (~ In ref (all_refs w_open) ->
      ~ In ref (PyDict.keys (original_paths_of w_open))).
Proof.
  intros final. split.
  - intros Hopen Hin.
    destruct (batch_grows use_single_path mapping_dict dir_only_checkbox
                slash_convert_checkbox log relinked w)
      as (ns & nf & nl & calls & Hs & _ & _ & _ & _ & _ & Hr & _).
    fold final in Hs, Hr. simpl in Hs, Hr. rewrite Hs in Hin.
    assert (Hget : PyDict.get ref (original_paths_of w_open)
                   = Some (cmds_referenceQuery_filename w_open ref)).
    { unfold original_paths_of, PyDict.comprehension. rewrite comprehension_fold.
      apply str_in_In in Hopen. now rewrite Hopen. }
    destruct (dict_get_split _ _ _ Hget) as (front & back & Hd).
    exists front, back. split; [assumption|]. rewrite Hd. unfold path_text.
    rewrite fold_left_app. cbn [fold_left fst snd].
    rewrite (fold_left_text
               (fun item => path_entry w_now (relinked_refs final) (fst item) (snd item))
               back (_ +:+ _)).
    rewrite append_assoc. f_equal. f_equal.
    unfold path_entry. rewrite bool_decide_eq_true_2; [reflexivity|].
    rewrite Hr. apply elem_of_union_l, elem_of_list_to_set, list_elem_of_In, Hin.
  - intros Hout Hk.
    assert (Hget : PyDict.get ref (original_paths_of w_open) <> None).
    { revert Hk. generalize (original_paths_of w_open). intros d. unfold PyDict.keys.
      induction d as [|[k0 v0] d IH]; simpl; [intros []|].
      intros [->|Hk]; [now rewrite String.eqb_refl|].
      destruct (String.eqb ref k0); [discriminate | now apply IH]. }
    unfold original_paths_of, PyDict.comprehension in Hget.
    rewrite comprehension_fold in Hget.
    destruct (PyStr.str_in ref (all_refs w_open)) eqn:Hin; [|now destruct Hget].
    apply str_in_In in Hin. contradiction.
Qed.

End WindowFacts.

(** ** The same, on the test double *)

Lemma find_file_first_match_witness :
  exists before root dirs files after,
    os_walk scene_A "/lib" = before ++ (root, dirs, files) :: after
    /\ In "asset.ma" files
    /\ (forall r d f, In (r, d, f) before -> ~ In "asset.ma" f)
    /\ "/lib/sub/asset.ma" = OsPath.join root "asset.ma".
Proof.
  apply (find_file_first_match scene_A "/lib" "asset.ma" "/lib/sub/asset.ma").
  reflexivity.
Defined.

Lemma candidate_has_clean_name_witness :
  OsPath.basename "/lib/sub/asset.ma" = clean_name_of scene_A "ref1".
Proof.
  apply (proj2 (candidate_has_clean_name scene_A "/lib" "ref1")). reflexivity.
Defined.

Lemma batch_outcomes_bounded_witness :
  In "ref1" (batch_refs true [] scene_A).
Proof.
  apply (proj1 (batch_outcomes_bounded true [] "dirOnly" "slashConvert" [] ∅ scene_A)).
  vm_compute. left. reflexivity.
Defined.

Lemma batch_exact_file_no_walk_witness :
  let final := fst (relink_references true [] "dirOnly" "slashConvert" [] ∅ scene_C) in
  (forall call, In call (trace final) -> is_reload call = true)
  /\ length (trace final) <= length (success final) + length (failed final).
Proof.
  apply (batch_exact_file_no_walk true [] "dirOnly" "slashConvert" [] ∅ scene_C).
  reflexivity.
Defined.

Lemma batch_success_reloaded_witness :
  exists new_path,
    In (CallReload new_path "ref1")
       (trace (fst (relink_references true [] "dirOnly" "slashConvert" [] ∅ scene_A))).
Proof.
  apply (batch_success_reloaded true [] "dirOnly" "slashConvert" [] ∅ scene_A "ref1").
  vm_compute. left. reflexivity.
Defined.

Lemma batch_host_untouched_witness :
  world (fst (relink_references true [] "dirOnly" "slashConvert" [] ∅ scene_A_stated))
  = scene_A_stated.
Proof.
  apply (batch_host_untouched true [] "dirOnly" "slashConvert" [] ∅ scene_A_stated).
  reflexivity.
Defined.

Lemma dialog_bounded_witness :
  let text := "Failed to relink:" +:+ PyStr.nl
              +:+ "ref1: Target path does not exist: '/tmp/doesnotexist.ma'" in
  text <> "" /\ String.length text <= 1023.
Proof.
  apply (dialog_bounded false [("ref1", "tf1")] "dirOnly" "slashConvert" [] ∅ scene_C).
  reflexivity.
Defined.

Lemma shared_path_blank_witness :
  let w := scene [ref1 "/old/asset.ma" ""] "  " "" true in
  relink_references true [] "dirOnly" "slashConvert" [] ∅ w
  = (initial_state [] ∅ w, None).
Proof.
  apply (shared_path_blank [] "dirOnly" "slashConvert" [] ∅
           (scene [ref1 "/old/asset.ma" ""] "  " "" true)).
  right. reflexivity.
Defined.

Lemma search_finds_nothing_witness :
  let s := initial_state [] ∅ scene_A_stated in
  let s' := single_path_step true "/lib" s "ref1" in
  failed s' = ["ref1: Could not find 'asset{2}.ma' in /lib (and subdirs)"]
  /\ relink_log s' = ["Failed to relink ref1: Could not find 'asset{2}.ma' in /lib (and subdirs)"]
  /\ trace s' = [CallWalk "/lib"].
Proof.
  cbv zeta.
  set (s := initial_state [] ∅ scene_A_stated).
  assert (Hx : cmds_objExists (world s) "ref1" = true) by reflexivity.
  assert (Hrun : runs_step true "/lib" "ref1" s (single_path_step true "/lib" s "ref1"))
    by (left; split; [discriminate | reflexivity]).
  assert (Hd : os_path_isdir (world s) "/lib" = true) by reflexivity.
  destruct (search_finds_nothing "/lib" "ref1" s _ Hx Hrun Hd)
    as (_ & Hf & Hl & _ & Ht & _).
  - intros root dirs files Hin. vm_compute in Hin.
    destruct Hin as [Hin|[Hin|[]]]; injection Hin as <- <- <-; vm_compute.
    + intros [].
    + intros [Heq|[]]. discriminate.
  - split; [exact Hf | split; [exact Hl | exact Ht]].
Defined.

Lemma original_paths_lookup_witness :
  PyStr.contains "sharedReferenceNode" "ref1" = false.
Proof.
  apply (proj2 (proj2 (original_paths_lookup scene_A "ref1")) "ref1").
  vm_compute. left. reflexivity.
Defined.

Lemma path_text_old_paths_witness :
  path_text scene_A ∅ [("ref1", "/old/asset.ma{2}")] =
  String.concat "" [ "/old/asset.ma{2}" +:+ PyStr.nl +:+ PyStr.nl ].
Proof.
  apply (proj2 (path_text_old_paths scene_A ∅ [("ref1", "/old/asset.ma{2}")] [])).
  intros item _. apply not_elem_of_empty.
Defined.

Lemma relinked_shown_with_both_paths_witness :
  let final := fst (relink_references true [] "dirOnly" "slashConvert" [] ∅ scene_A) in
  exists front back,
    original_paths_of scene_A = front ++ ("ref1", "/old/asset.ma{2}") :: back
    /\ path_text (world final) (relinked_refs final) (original_paths_of scene_A) =
       path_text (world final) (relinked_refs final) front
       +:+ ("/old/asset.ma{2}" +:+ String "010"%char ""
            +:+ "/lib/sub/asset.ma{2}"
            +:+ String "010"%char (String "010"%char ""))
       +:+ path_text (world final) (relinked_refs final) back.
Proof.
  cbv zeta.
  set (final := fst (relink_references true [] "dirOnly" "slashConvert" [] ∅ scene_A)).
  assert (Hopen : In "ref1" (all_refs scene_A)) by (vm_compute; left; reflexivity).
  assert (Hin : In "ref1" (success final)) by (vm_compute; left; reflexivity).
  exact (proj1 (relinked_shown_with_both_paths true [] "dirOnly" "slashConvert" [] ∅
                  scene_A scene_A (world final) "ref1") Hopen Hin).
Defined.

(** * The pattern over Unicode *)

Module UniPatternFacts.
Import UniPattern.

Section WithDigits.

Variable is_decimal : codepoint -> bool.

(** Neither brace is a decimal digit. *)
Hypothesis open_not_decimal : is_decimal open_brace = false.
Hypothesis close_not_decimal : is_decimal close_brace = false.

Lemma decimal_not_close (c : codepoint) :
  is_decimal c = true -> N.eqb c close_brace = false.
Proof.
  intros Hd. destruct (N.eqb_spec c close_brace) as [->|]; [|reflexivity]. congruence.
Qed.

Lemma decimal_not_open (c : codepoint) :
  is_decimal c = true -> N.eqb c open_brace = false.
Proof.
  intros Hd. destruct (N.eqb_spec c open_brace) as [->|]; [|reflexivity]. congruence.
Qed.

Lemma digits_close_complete_uni (ds tail : list codepoint) :
  forallb is_decimal ds = true -> at_end tail = true ->
  digits_close is_decimal (ds ++ close_brace :: tail) = Some ds.
Proof.
  intros Hds Ht. induction ds as [|c ds IH]; simpl in *.
  - now rewrite close_not_decimal, Ht.
  - apply andb_true_iff in Hds as [Hc Hds]. now rewrite Hc, (IH Hds).
Qed.

Lemma digits_close_sound_uni (s ds : list codepoint) :
  digits_close is_decimal s = Some ds ->
  forallb is_decimal ds = true
  /\ exists tail, at_end tail = true /\ s = ds ++ close_brace :: tail.
Proof.
  revert ds. induction s as [|c s IH]; simpl; intros ds Hs; [discriminate|].
  destruct (is_decimal c) eqn:Hc.
  - destruct (digits_close is_decimal s) as [ds'|] eqn:Hr; [|discriminate].
    injection Hs as <-. destruct (IH ds' eq_refl) as (Hall & tail & Ht & ->).
    split; [simpl; now rewrite Hc | exists tail; split; [assumption | reflexivity]].
  - destruct (N.eqb_spec c close_brace) as [->|]; [|discriminate].
    destruct (at_end s) eqn:Ht; [|discriminate].
    injection Hs as <-. split; [reflexivity | exists s; split; [assumption | reflexivity]].
Qed.

Lemma decoration_app (ds tail : list codepoint) :
  decoration ds ++ tail = open_brace :: ds ++ close_brace :: tail.
Proof. unfold decoration. simpl. now rewrite <- app_assoc. Qed.

Lemma group2_end_complete_uni (ds tail : list codepoint) :
  is_number is_decimal ds -> at_end tail = true ->
  group2_end is_decimal (decoration ds ++ tail) = Some (decoration ds).
Proof.
  intros [Hne Hds] Ht. rewrite decoration_app. unfold group2_end.
  rewrite N.eqb_refl, (digits_close_complete_uni ds tail Hds Ht).
  destruct ds; [congruence | reflexivity].
Qed.

Lemma group2_end_sound_uni (s g : list codepoint) :
  group2_end is_decimal s = Some g ->
  exists ds tail, is_number is_decimal ds /\ at_end tail = true
                  /\ s = decoration ds ++ tail /\ g = decoration ds.
Proof.
  destruct s as [|c s]; simpl; [discriminate|].
  destruct (N.eqb_spec c open_brace) as [->|]; [|discriminate].
  destruct (digits_close is_decimal s) as [[|d ds]|] eqn:Hr; try discriminate.
  intros Hg. injection Hg as <-.
  destruct (digits_close_sound_uni _ _ Hr) as (Hall & tail & Ht & ->).
  exists (d :: ds), tail. split; [split; [discriminate | assumption]|].
  split; [assumption|]. split; [symmetry; apply decoration_app | reflexivity].
Qed.

Lemma dot_star_cons_uni (c : codepoint) (s : list codepoint) :
  dot_star is_decimal (c :: s) =
  if is_dot c then
    match dot_star is_decimal s with
    | Some (p, g) => Some (c :: p, g)
    | None => then_empty (group2_end is_decimal (c :: s))
    end
  else then_empty (group2_end is_decimal (c :: s)).
Proof. reflexivity. Qed.

Lemma group2_end_needs_brace (c : codepoint) (s : list codepoint) :
  not_open c = true -> group2_end is_decimal (c :: s) = None.
Proof.
  unfold not_open, group2_end. intros Hc. apply negb_true_iff in Hc. now rewrite Hc.
Qed.

Lemma dot_star_no_brace_uni (s : list codepoint) :
  forallb not_open s = true -> dot_star is_decimal s = None.
Proof.
  induction s as [|c s IH]; [reflexivity|]. intros Hs. simpl in Hs.
  apply andb_true_iff in Hs as [Hc Hs].
  rewrite dot_star_cons_uni, (IH Hs), (group2_end_needs_brace c s Hc).
  now destruct (is_dot c).
Qed.

Lemma at_end_no_brace_uni (tail : list codepoint) :
  at_end tail = true -> forallb not_open tail = true.
Proof.
  destruct tail as [|c [|d tail]]; simpl; try discriminate; [reflexivity|].
  intros Hc. apply N.eqb_eq in Hc as ->. reflexivity.
Qed.

Lemma decoration_tail_no_brace_uni (ds tail : list codepoint) :
  is_number is_decimal ds -> at_end tail = true ->
  forallb not_open (ds ++ close_brace :: tail) = true.
Proof.
  intros [_ Hds] Ht. rewrite forallb_app. apply andb_true_iff. split.
  - rewrite forallb_forall in *. intros c Hc. unfold not_open.
    now rewrite (decimal_not_open c (Hds c Hc)).
  - simpl. now apply at_end_no_brace_uni.
Qed.

Lemma dot_star_complete_uni (p ds tail : list codepoint) :
  forallb is_dot p = true -> is_number is_decimal ds -> at_end tail = true ->
  dot_star is_decimal (p ++ decoration ds ++ tail) = Some (p, decoration ds).
Proof.
  intros Hp Hds Ht. induction p as [|c p IH].
  - pose proof (group2_end_complete_uni ds tail Hds Ht) as Hg.
    rewrite decoration_app in *. cbn [app]. rewrite dot_star_cons_uni, Hg.
    rewrite (dot_star_no_brace_uni _ (decoration_tail_no_brace_uni ds tail Hds Ht)).
    reflexivity.
  - simpl in Hp. apply andb_true_iff in Hp as [Hc Hp].
    cbn [app]. now rewrite dot_star_cons_uni, Hc, (IH Hp).
Qed.

Lemma dot_star_sound_uni (s p g : list codepoint) :
  dot_star is_decimal s = Some (p, g) ->
  forallb is_dot p = true
  /\ exists rest, s = p ++ rest /\ group2_end is_decimal rest = Some g.
Proof.
  revert p. induction s as [|c s IH]; intros p Hs; [discriminate|].
  rewrite dot_star_cons_uni in Hs. destruct (is_dot c) eqn:Hc.
  - destruct (dot_star is_decimal s) as [[p' g']|] eqn:Hr.
    + injection Hs as <- <-. destruct (IH p' eq_refl) as (Hp & rest & -> & Hg).
      split; [simpl; now rewrite Hc | exists rest; split; [reflexivity | assumption]].
    + destruct (group2_end is_decimal (c :: s)) as [g'|] eqn:Hg; [|discriminate].
      injection Hs as <- <-. split; [reflexivity|]. exists (c :: s). now split.
  - destruct (group2_end is_decimal (c :: s)) as [g'|] eqn:Hg; [|discriminate].
    injection Hs as <- <-. split; [reflexivity|]. exists (c :: s). now split.
Qed.

Lemma pattern_match_complete_uni (F base ds tail : list codepoint) :
  matched_shape is_decimal F base ds tail ->
  pattern_match is_decimal F = Some (base, decoration ds).
Proof.
  intros ([Hne Hb] & Hds & Ht & ->). destruct base as [|c base]; [congruence|].
  simpl in Hb. apply andb_true_iff in Hb as [Hc Hb].
  cbn [app]. unfold pattern_match. rewrite Hc.
  now rewrite (dot_star_complete_uni base ds tail Hb Hds Ht).
Qed.

Lemma pattern_match_sound_uni (F g1 g2 : list codepoint) :
  pattern_match is_decimal F = Some (g1, g2) ->
  exists ds tail, matched_shape is_decimal F g1 ds tail /\ g2 = decoration ds.
Proof.
  destruct F as [|c F]; simpl; [discriminate|].
  destruct (is_dot c) eqn:Hc; [|discriminate].
  destruct (dot_star is_decimal F) as [[p g]|] eqn:Hr; [|discriminate].
  intros Hg. injection Hg as <- <-.
  destruct (dot_star_sound_uni _ _ _ Hr) as (Hp & rest & -> & Hg).
  destruct (group2_end_sound_uni _ _ Hg) as (ds & tail & Hds & Ht & -> & ->).
  exists ds, tail. split; [|reflexivity].
  split; [split; [discriminate | simpl; now rewrite Hc]|].
  split; [assumption|]. split; [assumption | reflexivity].
Qed.

Lemma pattern_match_decoration_only_uni (digits : list codepoint) :
  is_number is_decimal digits ->
  pattern_match is_decimal (decoration digits) = None.
Proof.
  intros Hd. unfold decoration, pattern_match.
  change (is_dot open_brace) with true. cbv iota.
  pose proof (decoration_tail_no_brace_uni digits [] Hd eq_refl) as Hno.
  now rewrite (dot_star_no_brace_uni _ Hno).
Qed.

End WithDigits.

End UniPatternFacts.

(** C1 (as amended).  Whatever the decimal digits of [\d] are, as long as
    the braces are not among them: a name made of a non-empty base without
    a newline, the decoration (one decimal digit or more between braces)
    and at most a final newline is stripped to its base; a name of no such
    shape is returned unchanged; and so is a name that is only the
    decoration, whose base is empty. *)
Theorem strip_copy_suffix_spec (is_decimal : UniPattern.codepoint -> bool)
    (F : list UniPattern.codepoint) :
  is_decimal UniPattern.open_brace = false ->
  is_decimal UniPattern.close_brace = false ->
  (forall base digits tail,
      UniPattern.matched_shape is_decimal F base digits tail ->
      UniPattern.clean_file_name is_decimal F = base)
  /\ ((forall base digits tail, ~ UniPattern.matched_shape is_decimal F base digits tail) ->
      UniPattern.clean_file_name is_decimal F = F)
  /\ (forall digits,
      UniPattern.is_number is_decimal digits -> F = UniPattern.decoration digits ->
      UniPattern.clean_file_name is_decimal F = F).
Proof.
  intros Hopen Hclose. unfold UniPattern.clean_file_name. split; [|split].
  - intros base digits tail Hs.
    now rewrite (UniPatternFacts.pattern_match_complete_uni is_decimal Hopen Hclose _ _ _ _ Hs).
  - intros Hno.
    destruct (UniPattern.pattern_match is_decimal F) as [[g1 g2]|] eqn:Hm; [|reflexivity].
    destruct (UniPatternFacts.pattern_match_sound_uni is_decimal _ _ _ Hm)
      as (ds & tail & Hs & _).
    destruct (Hno _ _ _ Hs).
  - intros digits Hd ->.
    now rewrite (UniPatternFacts.pattern_match_decoration_only_uni is_decimal Hopen Hclose
                   digits Hd).
Qed.

Lemma strip_copy_suffix_spec_witness :
  UniPattern.clean_file_name UniPattern.two_scripts
    (UniPattern.codes "asset.ma{" ++ [UniPattern.arabic_three] ++ UniPattern.codes "}")
  = UniPattern.codes "asset.ma"
  /\ UniPattern.clean_file_name UniPattern.two_scripts (UniPattern.codes "asset{2}.ma")
     = UniPattern.codes "asset{2}.ma"
  /\ UniPattern.clean_file_name UniPattern.two_scripts (UniPattern.codes "{3}")
     = UniPattern.codes "{3}".
Proof.
  split; [|split].
  - apply (proj1 (strip_copy_suffix_spec UniPattern.two_scripts
                    (UniPattern.codes "asset.ma{" ++ [UniPattern.arabic_three]
                     ++ UniPattern.codes "}") eq_refl eq_refl)
             (UniPattern.codes "asset.ma") [UniPattern.arabic_three] []).
    split; [split; [discriminate | reflexivity]|].
    split; [split; [discriminate | reflexivity]|]. split; reflexivity.
  - apply (proj1 (proj2 (strip_copy_suffix_spec UniPattern.two_scripts
                           (UniPattern.codes "asset{2}.ma") eq_refl eq_refl))).
    intros base digits tail Hs.
    apply (UniPatternFacts.pattern_match_complete_uni UniPattern.two_scripts eq_refl eq_refl)
      in Hs.
    vm_compute in Hs. discriminate.
  - apply (proj2 (proj2 (strip_copy_suffix_spec UniPattern.two_scripts
                           (UniPattern.codes "{3}") eq_refl eq_refl))
             (UniPattern.codes "3")); [|reflexivity].
    split; [discriminate | reflexivity].
Defined.

(** [CopySuffix] is the pattern on the code points below 256: it agrees
    with [UniPattern] for every class of decimal digits that holds, below
    256, the ASCII digits only. *)

Lemma codes_cons (c : ascii) (s : string) :
  UniPattern.codes (String c s) = Ascii.N_of_ascii c :: UniPattern.codes s.
Proof. reflexivity. Qed.

Lemma codes_app (a b : string) :
  UniPattern.codes (a +:+ b) = UniPattern.codes a ++ UniPattern.codes b.
Proof.
  induction a as [|c a IH]; [reflexivity|].
  change (String c a +:+ b) with (String c (a +:+ b)). now rewrite !codes_cons, IH.
Qed.

Lemma is_dot_codes (c : ascii) :
  UniPattern.is_dot (Ascii.N_of_ascii c) = CopySuffix.is_dot c.
Proof. destruct c as [[] [] [] [] [] [] [] []]; reflexivity. Qed.

Lemma newline_codes (c : ascii) :
  N.eqb (Ascii.N_of_ascii c) UniPattern.newline = Ascii.eqb c PyStr.newline.
Proof. destruct c as [[] [] [] [] [] [] [] []]; reflexivity. Qed.

Lemma open_brace_codes (c : ascii) :
  N.eqb (Ascii.N_of_ascii c) UniPattern.open_brace = Ascii.eqb c "{".
Proof. destruct c as [[] [] [] [] [] [] [] []]; reflexivity. Qed.

Lemma close_brace_codes (c : ascii) :
  N.eqb (Ascii.N_of_ascii c) UniPattern.close_brace = Ascii.eqb c "}".
Proof. destruct c as [[] [] [] [] [] [] [] []]; reflexivity. Qed.

Lemma two_scripts_below_256 (c : ascii) :
  UniPattern.two_scripts (Ascii.N_of_ascii c) = CopySuffix.is_digit c.
Proof. destruct c as [[] [] [] [] [] [] [] []]; reflexivity. Qed.

Section Restriction.

Variable is_decimal : UniPattern.codepoint -> bool.
Hypothesis ascii_only :
  forall c : ascii, is_decimal (Ascii.N_of_ascii c) = CopySuffix.is_digit c.

Lemma at_end_codes (s : string) :
  UniPattern.at_end (UniPattern.codes s) = CopySuffix.at_end s.
Proof.
  destruct s as [|c [|d s]]; [reflexivity | |reflexivity].
  rewrite codes_cons. simpl. apply newline_codes.
Qed.

Lemma digits_close_codes (s : string) :
  UniPattern.digits_close is_decimal (UniPattern.codes s)
  = option_map UniPattern.codes (CopySuffix.digits_close s).
Proof.
  induction s as [|c s IH]; [reflexivity|].
  rewrite codes_cons. simpl. rewrite ascii_only, IH, close_brace_codes, at_end_codes.
  destruct (CopySuffix.is_digit c).
  - now destruct (CopySuffix.digits_close s).
  - destruct (Ascii.eqb c "}"); [|reflexivity]. now destruct (CopySuffix.at_end s).
Qed.

Lemma group2_end_codes (s : string) :
  UniPattern.group2_end is_decimal (UniPattern.codes s)
  = option_map UniPattern.codes (CopySuffix.group2_end s).
Proof.
  destruct s as [|c s]; [reflexivity|].
  rewrite codes_cons. simpl. rewrite open_brace_codes, digits_close_codes.
  destruct (Ascii.eqb c "{"); [|reflexivity].
  destruct (CopySuffix.digits_close s) as [[|d ds]|]; try reflexivity.
  assert (Hc : UniPattern.codes ("{" +:+ String d ds +:+ "}")
               = UniPattern.open_brace
                 :: UniPattern.codes (String d ds) ++ [UniPattern.close_brace])
    by (rewrite (codes_app "{"), codes_app; reflexivity).
  exact (f_equal Some (eq_sym Hc)).
Qed.

Lemma then_empty_codes (r : option string) :
  UniPattern.then_empty (option_map UniPattern.codes r)
  = option_map UniPattern.codes2 (CopySuffix.then_empty r).
Proof. now destruct r. Qed.

Lemma dot_star_codes (s : string) :
  UniPattern.dot_star is_decimal (UniPattern.codes s)
  = option_map UniPattern.codes2 (CopySuffix.dot_star s).
Proof.
  induction s as [|c s IH]; [reflexivity|].
  rewrite CopySuffixFacts.dot_star_cons, codes_cons, UniPatternFacts.dot_star_cons_uni.
  rewrite is_dot_codes, IH, <- codes_cons, group2_end_codes, then_empty_codes.
  destruct (CopySuffix.is_dot c); [|reflexivity].
  now destruct (CopySuffix.dot_star s) as [[p g]|].
Qed.

(** The clean name of a string of characters below 256 is the same in the
    two matchers. *)
Lemma clean_file_name_codes (s : string) :
  UniPattern.clean_file_name is_decimal (UniPattern.codes s)
  = UniPattern.codes (CopySuffix.clean_file_name s).
Proof.
  unfold UniPattern.clean_file_name, CopySuffix.clean_file_name.
  destruct s as [|c s]; [reflexivity|].
  rewrite codes_cons. unfold UniPattern.pattern_match, CopySuffix.pattern_match.
  rewrite is_dot_codes, dot_star_codes.
  destruct (CopySuffix.is_dot c); [|reflexivity].
  now destruct (CopySuffix.dot_star s) as [[p g]|].
Qed.

End Restriction.

(** * A query that raises *)

Section FaultFacts.

Context {W : Type} {HW : Host W} {QF : QueryFaults W}.

Implicit Types (s : RelinkState W) (ref : string).


(** When the query never raises, the program is the one of
    [relink_references]. *)
Lemma single_path_loop_agrees (dir_only : bool) (single_path : string)
    (refs : list string) s :
  (forall w ref, unresolvedName_raises w ref = None) ->
  loop_x (single_path_step_x dir_only single_path) refs s
  = Finished (fold_left (single_path_step dir_only single_path) refs s).
Proof.
  intros Hnone. revert s. induction refs as [|ref refs IH]; intros s; [reflexivity|].
  simpl. unfold single_path_step_x at 1. unfold single_path_step at 2.
  rewrite Hnone.
  destruct (negb (cmds_objExists (world s) ref)); [apply IH|].
  destruct dir_only; apply IH.
Qed.

Lemma per_reference_step_agrees (dir_only convert : bool) (item : string * string) s :
  (forall w ref, unresolvedName_raises w ref = None) ->
  per_reference_step_x dir_only convert s item = per_reference_step dir_only convert s item.
Proof.
  intros Hnone. destruct item as [ref tf].
  unfold per_reference_step_x, per_reference_step. now rewrite Hnone.
Qed.

Lemma relink_references_agrees (use_single_path : bool)
    (mapping_dict : list (string * string))
    (dir_only_checkbox slash_convert_checkbox : string)
    (log : list string) (relinked : gset string) (w : W) :
  (forall w ref, unresolvedName_raises w ref = None) ->
  relink_references_x use_single_path mapping_dict dir_only_checkbox
    slash_convert_checkbox log relinked w
  = Completed
      (fst (relink_references use_single_path mapping_dict dir_only_checkbox
              slash_convert_checkbox log relinked w))
      (snd (relink_references use_single_path mapping_dict dir_only_checkbox
              slash_convert_checkbox log relinked w)).
Proof.
  intros Hnone. unfold relink_references_x, relink_references, run_batch_x, run_batch.
  cbn [fst snd]. destruct use_single_path.
  - destruct (cmds_textField_exists _ _); [|reflexivity].
    destruct (PyStr.truthy _); [|reflexivity].
    now rewrite single_path_loop_agrees.
  - assert (Hfold : forall items s,
              fold_left (per_reference_step_x (cmds_checkBox_value w dir_only_checkbox)
                           (cmds_checkBox_value w slash_convert_checkbox)) items s
              = fold_left (per_reference_step (cmds_checkBox_value w dir_only_checkbox)
                             (cmds_checkBox_value w slash_convert_checkbox)) items s).
    { induction items as [|item items IH]; intros s; [reflexivity|].
      simpl. now rewrite per_reference_step_agrees, IH. }
    now rewrite Hfold.
Qed.

(** The loop over the text fields catches the exception of the query and
    records it for the reference, with the text [Error processing path]. *)
Lemma per_reference_query_error_recorded (convert : bool)
    (text_field ref e : string) s :
  cmds_objExists (world s) ref = true ->
  PyStr.strip (cmds_textField_text (world s) text_field) <> "" ->
  os_path_isdir (world s) (user_input_of convert (world s) text_field) = true ->
  unresolvedName_raises (world s) ref = Some e ->
  let s' := per_reference_step_x true convert s (ref, text_field) in
  success s' = success s
  /\ failed s' = failed s ++ [ref +:+ ": " +:+ "Error processing path: " +:+ e]
  /\ relink_log s' =
     relink_log s ++ ["Failed to relink " +:+ ref +:+ ": "
                      +:+ "Error processing path: " +:+ e]
  /\ relinked_refs s' = relinked_refs s
  /\ trace s' = trace s
  /\ world s' = world s.
Proof.
  intros Hx Hne Hd He. unfold per_reference_step_x. rewrite Hx. simpl.
  apply truthy_true in Hne. rewrite Hne. simpl.
  unfold user_input_of in Hd. rewrite Hd, He. simpl. repeat split.
Qed.


End FaultFacts.


(** The same scene through the two loops: over the shared path the batch
    is left at [ref1] with nothing recorded and [ref2] untouched; over the
    text fields the failure of [ref1] is recorded and [ref2] is relinked. *)
Lemma query_error_in_the_two_loops :
  relink_references_x true [] "dirOnly" "slashConvert" [] ∅ FlakyHost.two_refs
  = Uncaught FlakyHost.no_file (initial_state [] ∅ FlakyHost.two_refs)
  /\ exists s dialog,
       relink_references_x false [("ref1", "tf1"); ("ref2", "tf1")]
         "dirOnly" "slashConvert" [] ∅ FlakyHost.two_refs = Completed s dialog
       /\ failed s = ["ref1: Error processing path: Reference node 'ref1' is not associated with a reference file."]
       /\ success s = ["ref2"]
       /\ trace s = [CallWalk "/lib"; CallReload "/lib/sub/asset.ma" "ref2"].
Proof.
  split; [vm_compute; reflexivity|].
  eexists _, _. split; [reflexivity|]. vm_compute. repeat split; reflexivity.
Qed.
